(** * dwh_table_creator: the staged ingestion pipeline of [app.py]

    A shallow embedding of the Flask handlers of [app.py] ([index],
    [columns_input]), of the start-up selection of the WebHDFS endpoint
    ([init_webhdfs_client]) and of the three database helpers, followed by
    the properties of the pipeline.

    The handlers are sequences of calls to collaborators that live outside
    the program (the WebHDFS client, psycopg2, uuid): every such call is
    answered by an [environment], a function of the history of the run so
    far, and is recorded with its answer in a chronological trace.  The
    local file system (the [temp] directory the upload is saved to) is part
    of the state.  Python exceptions are the left summand of a result. *)

From Stdlib Require Import String Ascii List Bool Arith Lia DecimalString.
From stdpp Require Import base option list gmap strings.

Local Open Scope list_scope.
Local Open Scope string_scope.
Local Set Warnings "-register-all".

(** ** Python values *)

Module Py.

(** The values that cross the boundary with the collaborators: what
    [request.form.get] returns, what the WebHDFS client hands back, what a
    template or a redirect receives. *)
Inductive pyval :=
| PyNone
| PyBool (b : bool)
| PyStr (s : string)
| PyList (l : list pyval).

(** Python truthiness ([if v:], [not v]). *)
Definition truthy (v : pyval) : bool :=
  match v with
  | PyNone => false
  | PyBool b => b
  | PyStr s => negb (String.eqb s "")
  | PyList l => match l with [] => false | _ => true end
  end.

(** [', '.join(l)] *)
Definition join (sep : string) (l : list string) : string := String.concat sep l.

(** The two hexadecimal digits of a byte, as [repr] prints them. *)
Definition hex_digit (n : nat) : ascii :=
  ascii_of_nat (if Nat.ltb n 10 then 48 + n else 87 + n).

Definition backslash : ascii := ascii_of_nat 92.
Definition double_quote : ascii := ascii_of_nat 34.

(** What [repr] writes for one character of a string quoted by [quote]:
    the backslash, the quote and the control characters are escaped.  The
    bytes of a character outside ASCII are kept, as for a printable
    character. *)
Definition escape (quote a : ascii) : string :=
  let n := nat_of_ascii a in
  if Ascii.eqb a backslash then String backslash (String backslash "")
  else if Ascii.eqb a quote then String backslash (String quote "")
  else if Nat.eqb n 10 then String backslash "n"
  else if Nat.eqb n 13 then String backslash "r"
  else if Nat.eqb n 9 then String backslash "t"
  else if Nat.ltb n 32 || Nat.eqb n 127
       then String backslash (String "x" (String (hex_digit (n / 16))
                                            (String (hex_digit (n mod 16)) "")))
  else String a "".

(** [repr] of a string: single quotes, unless the string holds a single
    quote and no double quote. *)
Definition repr_str (s : string) : string :=
  let chars := list_ascii_of_string s in
  let quote :=
    if existsb (Ascii.eqb "'") chars && negb (existsb (Ascii.eqb double_quote) chars)
    then double_quote else "'"%char in
  String quote (String.concat "" (map (escape quote) chars) ++ String quote "").

(** [repr] and [str]. *)
Fixpoint repr (v : pyval) : string :=
  match v with
  | PyNone => "None"
  | PyBool true => "True"
  | PyBool false => "False"
  | PyStr s => repr_str s
  | PyList l => "[" ++ join ", " (map repr l) ++ "]"
  end.

(** [str(n)] of a natural number. *)
Definition str_of_nat (n : nat) : string := NilEmpty.string_of_uint (Nat.to_uint n).

Definition str (v : pyval) : string :=
  match v with
  | PyStr s => s
  | _ => repr v
  end.

(** [s.split(sep)] for a one-character separator. *)
Fixpoint split_aux (sep : ascii) (s : string) (cur : string) : list string :=
  match s with
  | EmptyString => [cur]
  | String c s' =>
      if Ascii.eqb c sep then cur :: split_aux sep s' ""
      else split_aux sep s' (cur ++ String c "")
  end.

Definition split (sep : ascii) (s : string) : list string := split_aux sep s "".

(** [s.startswith(p)] *)
Definition startswith (p s : string) : bool := String.prefix p s.

(** An exception, with the text [str(e)] gives. *)
Record exn := Exception { message : string }.

End Py.
Export Py.

Example truthy_empty_string : truthy (PyStr "") = false.
Proof. reflexivity. Qed.

Example split_header : split "," "id,name" = ["id"; "name"].
Proof. reflexivity. Qed.

Example repr_headers : repr (PyList [PyStr "id"; PyStr "name"]) = "['id', 'name']".
Proof. reflexivity. Qed.

Example repr_apostrophe :
  repr (PyStr "it's") = String double_quote ("it's" ++ String double_quote "").
Proof. reflexivity. Qed.

Example str_of_nat_12 : str_of_nat 12 = "12".
Proof. reflexivity. Qed.

(** ** Configuration ([config.ini]) *)

Record config := Config {
  primary_url : string;       (* config['hdfs']['primary_url'] *)
  standby_url : string;       (* config['hdfs']['standby_url'] *)
  hdfs_username : string;     (* config['hdfs']['username'] *)
  DB_PARAMS : list (string * string);
  SCHEMA_EXTERNAL : string;   (* config['database']['schema_external'] *)
  SCHEMA_INTERNAL : string    (* config['database']['schema_internal'] *)
}.

(** ** Collaborators, events and the world *)

(** A [WebHDFSClient] object: the endpoint it was built for. *)
Record client := WebHDFSClient { base_url : string; username : string }.

(** The calls that leave the program.  [WriteFile] carries, besides its two
    arguments, the lines the local file holds when the call is made: the
    data the client transfers. *)
Inductive call :=
| Uuid4                                                    (* uuid.uuid4() *)
| NewClient (url user : string)                            (* WebHDFSClient(base_url=, username=) *)
| ListStatus (c : client) (path : string)                  (* client.list_status(path) *)
| Mkdirs (c : client) (path : string)                      (* client.mkdirs(path) *)
| UploadFile (c : client) (local remote : string)          (* client.upload_file(local, remote) *)
| WriteFile (c : client) (url : pyval) (local : string) (data : option (list string))
                                                           (* client.write_file(url, local) *)
| DeleteFile (c : client) (path : pyval) (recursive : bool) (* client.delete_file(path, recursive=) *)
| DbConnect (params : list (string * string))              (* psycopg2.connect of DB_PARAMS *)
| DbCursor                                                 (* conn.cursor() *)
| DbExecute (query : string)                               (* cursor.execute(query) *)
| DbCommit.                                                (* conn.commit() *)

(** A call either raises or returns a value. *)
Definition outcome : Type := exn + pyval.

Inductive level := INFO | WARNING | ERROR | CRITICAL.

Inductive event :=
| Called (c : call) (r : outcome)
| Logged (lvl : level) (msg : string)       (* logger.info / warning / error / critical *)
| Flashed (msg category : string)           (* flash(msg, category) *)
| Printed (msg : string).                   (* print(msg) *)

(** The collaborators' behaviour: the answer to a call, given everything
    that happened before it. *)
Definition environment : Type := list event -> call -> outcome.

(** The state a handler runs in: the chronological trace and the local
    file system (directories, and files as lists of lines). *)
Record world := World {
  trace : list event;
  local_dirs : gset string;
  local_files : gmap string (list string)
}.

Definition emit (e : event) (w : world) : world :=
  World (trace w ++ [e]) (local_dirs w) (local_files w).

(** ** The monad of handlers: environment, state, exceptions *)

Definition M (A : Type) : Type := environment -> world -> world * (exn + A).

Definition ret {A} (a : A) : M A := fun _ w => (w, inr a).

Definition bind {A B} (m : M A) (k : A -> M B) : M B :=
  fun env w =>
    match m env w with
    | (w', inl e) => (w', inl e)
    | (w', inr a) => k a env w'
    end.

(** [raise e] *)
Definition raise {A} (e : exn) : M A := fun _ w => (w, inl e).

(** [try: body / except Exception as e: handler e].  The handler runs in
    the state the body left; what the handler raises propagates. *)
Definition try_except {A} (body : M A) (handler : exn -> M A) : M A :=
  fun env w =>
    match body env w with
    | (w', inl e) => handler e env w'
    | (w', inr a) => (w', inr a)
    end.

(** stdpp's monad notations: [x ← m; k] and [m;; k]. *)
#[global] Instance M_ret : MRet M := @ret.
#[global] Instance M_bind : MBind M := fun A B k m => bind m k.

(** A call to a collaborator: ask the environment, record the call and its
    answer. *)
Definition perform (c : call) : M pyval :=
  fun env w =>
    let r := env (trace w) c in
    (emit (Called c r) w, r).

Definition log (lvl : level) (msg : string) : M unit :=
  fun _ w => (emit (Logged lvl msg) w, inr tt).

Definition flash (msg category : string) : M unit :=
  fun _ w => (emit (Flashed msg category) w, inr tt).

Definition print (msg : string) : M unit :=
  fun _ w => (emit (Printed msg) w, inr tt).

Definition get_world : M world := fun _ w => (w, inr w).

(** ** The local file system: [os], [FileStorage.save] *)

Module Os.

(** [os.path.exists(p)] *)
Definition path_exists (p : string) : M bool :=
  fun _ w =>
    (w, inr (bool_decide (p ∈ local_dirs w) || bool_decide (is_Some (local_files w !! p)))).

(** [os.makedirs(p)] *)
Definition makedirs (p : string) : M unit :=
  fun _ w =>
    if bool_decide (p ∈ local_dirs w) || bool_decide (is_Some (local_files w !! p))
    then (w, inl (Exception ("[Errno 17] File exists: " ++ repr (PyStr p))))
    else (World (trace w) ({[p]} ∪ local_dirs w) (local_files w), inr tt).

(** [os.path.join(a, b)] on POSIX: an absolute [b] discards [a]. *)
Definition path_join (a b : string) : string :=
  if startswith "/" b then b
  else if String.eqb a "" then b
  else if String.eqb (String.substring (String.length a - 1) 1 a) "/" then a ++ b
  else a ++ "/" ++ b.

(** [os.remove(p)] *)
Definition remove (p : string) : M unit :=
  fun _ w =>
    match local_files w !! p with
    | Some _ => (World (trace w) (local_dirs w) (delete p (local_files w)), inr tt)
    | None => (w, inl (Exception ("[Errno 2] No such file or directory: " ++ repr (PyStr p))))
    end.

(** Writing a file: [open(p, 'w')] followed by the lines.  The directory
    of [p] is taken to exist and [p] to be no directory: the properties that
    depend on it say so ([plain_name], [copy_writable]). *)
Definition write_lines (p : string) (lines : list string) : M unit :=
  fun _ w => (World (trace w) (local_dirs w) (<[p := lines]> (local_files w)), inr tt).

(** Reading a file. *)
Definition read_lines (p : string) : M (list string) :=
  fun _ w =>
    match local_files w !! p with
    | Some lines => (w, inr lines)
    | None => (w, inl (Exception ("[Errno 2] No such file or directory: " ++ repr (PyStr p))))
    end.

End Os.

Example path_join_relative : Os.path_join "temp" "data.csv" = "temp/data.csv".
Proof. reflexivity. Qed.

Example path_join_absolute : Os.path_join "temp" "/etc/data.csv" = "/etc/data.csv".
Proof. reflexivity. Qed.

(** ** pandas *)

Module Pd.

(** A data frame: the column names and the rows of cells. *)
Record DataFrame := { columns : list string; values : list (list string) }.

(** A line the tokenizer skips ([skip_blank_lines]): an empty line, or one
    of spaces and tabs only. *)
Definition blank (line : string) : bool :=
  forallb (fun a => Ascii.eqb a " " || Ascii.eqb a (ascii_of_nat 9))
    (list_ascii_of_string line).

(** A short row is completed with missing values, which [to_csv] writes as
    empty cells. *)
Definition pad (n : nat) (row : list string) : list string :=
  row ++ repeat "" (n - List.length row).

(** The records of a file: the fields of every line that is not skipped,
    with the number of the line in the file, counted from [line]. *)
Fixpoint records (line : nat) (lines : list string) : list (nat * list string) :=
  match lines with
  | [] => []
  | l :: ls =>
      if blank l then records (S line) ls
      else (line, split "," l) :: records (S line) ls
  end.

(** The [ParserError] of a row with too many fields. *)
Definition tokenizing_error (expected line saw : nat) : exn :=
  Exception ("Error tokenizing data. C error: Expected " ++ str_of_nat expected
             ++ " fields in line " ++ str_of_nat line ++ ", saw " ++ str_of_nat saw
             ++ String (ascii_of_nat 10) "").

(** [pd.read_csv] on the lines of a file, for the default dialect: comma
    separated, blank lines skipped, the first record is the header.  The
    first data row fixes the width of the table when it is longer than the
    header; a later row that is longer than that is an error, a shorter one
    is completed.  The surplus leading columns of a table wider than its
    header are the index, which [to_csv(index=False)] leaves out: they are
    dropped here.  A file without a record has no columns to parse.

    Fields are taken as they stand between the commas and cells are kept as
    text: this is what pandas does for a file without quote characters
    whose cells it reads back as they were written ([plain_cell] below). *)
Definition parse_csv (lines : list string) : exn + DataFrame :=
  match records 1 lines with
  | [] => inl (Exception "No columns to parse from file")
  | (_, cols) :: rows =>
      let width :=
        match rows with
        | [] => List.length cols
        | (_, first) :: _ => Nat.max (List.length cols) (List.length first)
        end in
      match List.find (fun r => Nat.ltb width (List.length r.2)) rows with
      | Some (line, cells) => inl (tokenizing_error width line (List.length cells))
      | None =>
          inr {| columns := cols;
                 values := map (fun r => drop (width - List.length cols) (pad width r.2)) rows |}
      end
  end.

(** [pd.read_csv(path)] *)
Definition read_csv (path : string) : M DataFrame :=
  lines ← Os.read_lines path;
  match parse_csv lines with
  | inl e => raise e
  | inr df => mret df
  end.

(** The lines [df.to_csv(_, index=False, header=False)] writes: one per row. *)
Definition csv_lines (df : DataFrame) : list string := map (join ",") (values df).

(** [df.to_csv(path, index=False, header=False)] *)
Definition to_csv (df : DataFrame) (path : string) : M unit :=
  Os.write_lines path (csv_lines df).

End Pd.

Example parse_two_rows :
  Pd.parse_csv ["id,name"; "1,a"; "2,b"]
  = inr {| Pd.columns := ["id"; "name"]; Pd.values := [["1"; "a"]; ["2"; "b"]] |}.
Proof. reflexivity. Qed.

Example parse_empty : Pd.parse_csv [] = inl (Exception "No columns to parse from file").
Proof. reflexivity. Qed.

(** A line of spaces is skipped. *)
Example parse_blank_line :
  Pd.parse_csv ["a"; "1"; " "; "2"]
  = inr {| Pd.columns := ["a"]; Pd.values := [["1"]; ["2"]] |}.
Proof. reflexivity. Qed.

(** Rows with one field more than the header: the first column is the index. *)
Example parse_implicit_index :
  Pd.parse_csv ["id,name"; "1,a,x"; "2,b,y"]
  = inr {| Pd.columns := ["id"; "name"]; Pd.values := [["a"; "x"]; ["b"; "y"]] |}.
Proof. reflexivity. Qed.

(** A row longer than the first data row, on the fourth line of the file. *)
Example parse_long_row :
  Pd.parse_csv ["id,name"; "1,a"; ""; "2,b,y"]
  = inl (Exception ("Error tokenizing data. C error: Expected 2 fields in line 4, saw 3"
                    ++ String (ascii_of_nat 10) "")).
Proof. reflexivity. Qed.

(** ** Flask: requests and responses *)

(** An uploaded file part: its name and its content. *)
Record FileStorage := { filename : string; stream : list string }.

(** [FileStorage.save(dst)]: the content is written to [dst]. *)
Definition save (f : FileStorage) (dst : string) : M unit := Os.write_lines dst (stream f).

Inductive http_method := GET | POST.

(** [request]: the method, [request.files] and [request.form] (a
    multi-dictionary: a key holds a list of values). *)
Record request := Request {
  method : http_method;
  files : gmap string FileStorage;
  form : gmap string (list string)
}.

(** [request.form.get(k)]: the first value, or [None]. *)
Definition form_get (r : request) (k : string) : pyval :=
  match form r !! k with
  | Some (v :: _) => PyStr v
  | _ => PyNone
  end.

(** [request.form.getlist(k)] *)
Definition form_getlist (r : request) (k : string) : list string :=
  default [] (form r !! k).

(** [str(request.files.keys())] *)
Definition dict_keys (r : request) : string :=
  "dict_keys(" ++ repr (PyList (map (fun kv => PyStr (fst kv)) (map_to_list (files r)))) ++ ")".

Inductive url := url_for (endpoint : string) (values : list (string * pyval)).

Inductive response :=
| redirect (u : url)
| render_template (template : string) (context : list (string * pyval)).

(** ** The WebHDFS client and psycopg2 *)

Module Hdfs.

(** [WebHDFSClient(base_url=url, username=user)] *)
Definition new (url user : string) : M client :=
  _ ← perform (NewClient url user);
  mret (WebHDFSClient url user).

Definition list_status (c : client) (path : string) : M pyval :=
  perform (ListStatus c path).

Definition mkdirs (c : client) (path : string) : M pyval :=
  perform (Mkdirs c path).

Definition upload_file (c : client) (local remote : string) : M pyval :=
  perform (UploadFile c local remote).

Definition write_file (c : client) (url : pyval) (local : string) : M pyval :=
  w ← get_world;
  perform (WriteFile c url local (local_files w !! local)).

Definition delete_file (c : client) (path : pyval) (recursive : bool) : M pyval :=
  perform (DeleteFile c path recursive).

End Hdfs.

Module Psycopg2.

Inductive connection := Conn.
Inductive cursor := Cur.

(** [psycopg2.connect] with the keyword arguments of [DB_PARAMS] *)
Definition connect (params : list (string * string)) : M connection :=
  _ ← perform (DbConnect params);
  mret Conn.

(** [conn.cursor()], entered by a [with] statement.  Leaving the [with]
    block only releases the cursor object and sends nothing. *)
Definition cursor_of (conn : connection) : M cursor :=
  _ ← perform DbCursor;
  mret Cur.

Definition execute (cur : cursor) (query : string) : M unit :=
  _ ← perform (DbExecute query);
  mret tt.

Definition commit (conn : connection) : M unit :=
  _ ← perform DbCommit;
  mret tt.

End Psycopg2.

(** ** The program *)

Definition nl : string := String (ascii_of_nat 10) "".

Fixpoint spaces (n : nat) : string :=
  match n with
  | O => ""
  | S n' => String " " (spaces n')
  end.

(** The statement [create_external_table] builds. *)
Definition create_external_query
    (schema_name table_name hdfs_path columns_definition delimiter : string) : string :=
  nl ++ spaces 16 ++ "CREATE EXTERNAL TABLE " ++ schema_name ++ "." ++ table_name ++ " (" ++
  nl ++ spaces 20 ++ columns_definition ++
  nl ++ spaces 16 ++ ")" ++
  nl ++ spaces 16 ++ "LOCATION ('pxf://" ++ hdfs_path ++ "?PROFILE=hdfs:csv&SERVER=adh')" ++
  nl ++ spaces 16 ++ "FORMAT 'CSV' (delimiter=E'" ++ delimiter ++ "');" ++
  nl ++ spaces 12.

(** The statement [create_table_from_external] builds. *)
Definition create_table_query (schema_name external_table_name new_table_name : string) : string :=
  nl ++ spaces 12 ++ "CREATE TABLE " ++ schema_name ++ "." ++ new_table_name ++ " AS" ++
  nl ++ spaces 12 ++ "SELECT * FROM " ++ external_table_name ++ ";" ++
  nl ++ spaces 8.

(** The statement [drop_external_table] builds. *)
Definition drop_external_query (table_name : string) : string :=
  "DROP EXTERNAL TABLE IF EXISTS " ++ table_name ++ ";".

Definition create_external_table (conn : Psycopg2.connection)
    (schema_name table_name hdfs_path columns_definition delimiter : string) : M unit :=
  cursor ← Psycopg2.cursor_of conn;
  try_except
    (let query :=
       create_external_query schema_name table_name hdfs_path columns_definition delimiter in
     log INFO ("query - " ++ query);;
     print query;;
     Psycopg2.execute cursor query;;
     Psycopg2.commit conn;;
     log INFO ("Внешняя таблица " ++ schema_name ++ "." ++ table_name ++ " успешно создана."))
    (fun e =>
     log ERROR ("Ошибка при создании внешней таблицы " ++ schema_name ++ "." ++ table_name
                ++ ": " ++ message e);;
     raise e).

Definition create_table_from_external (conn : Psycopg2.connection)
    (schema_name external_table_name new_table_name : string) : M unit :=
  cursor ← Psycopg2.cursor_of conn;
  let query := create_table_query schema_name external_table_name new_table_name in
  log INFO ("query - " ++ query);;
  Psycopg2.execute cursor query;;
  Psycopg2.commit conn.

Definition drop_external_table (conn : Psycopg2.connection) (table_name : string) : M unit :=
  cursor ← Psycopg2.cursor_of conn;
  Psycopg2.execute cursor (drop_external_query table_name);;
  Psycopg2.commit conn.

Section App.

Variable cfg : config.

(** [init_webhdfs_client] *)
Definition init_webhdfs_client : M (option client) :=
  let primary_url := primary_url cfg in
  let standby_url := standby_url cfg in
  let username := hdfs_username cfg in
  try_except
    (client ← Hdfs.new primary_url username;
     Hdfs.list_status client "/";;
     mret (Some client))
    (fun e =>
     log ERROR ("Primary HDFS недоступен: " ++ message e
                ++ ". Пытаемся подключиться к standby.");;
     try_except
       (client ← Hdfs.new standby_url username;
        Hdfs.list_status client "/";;
        mret (Some client))
       (fun e =>
        log ERROR ("Standby HDFS недоступен: " ++ message e
                   ++ ". Не удалось подключиться к HDFS.");;
        mret None)).

(** The module-level initialisation of the global [webhdfs_client]. *)
Definition startup : M client :=
  webhdfs_client ← init_webhdfs_client;
  match webhdfs_client with
  | None =>
      log CRITICAL "Не удалось подключиться к HDFS (ни primary, ни standby).";;
      raise (Exception "Не удалось подключиться к HDFS (ни primary, ни standby).")
  | Some c => mret c
  end.

(** The global client the handlers use. *)
Variable webhdfs_client : client.

(** [index], the handler of [/]. *)
Definition index (request : request) : M response :=
  match method request with
  | POST =>
      log INFO ("Ключи в request.files: " ++ dict_keys request);;
      match files request !! "csv_file" with
      | None =>
          flash "Файл не был загружен." "danger";;
          log WARNING "Попытка загрузки без файла.";;
          mret (redirect (url_for "index" []))
      | Some local_csv_path =>
          if String.eqb (filename local_csv_path) "" then
            flash "Выберите файл для загрузки." "danger";;
            log WARNING "Попытка загрузки пустого файла.";;
            mret (redirect (url_for "index" []))
          else
            let temp_dir := "temp" in
            present ← Os.path_exists temp_dir;
            (if negb present then Os.makedirs temp_dir else mret tt);;
            let local_file_path := Os.path_join temp_dir (filename local_csv_path) in
            save local_csv_path local_file_path;;
            parsed ← try_except
              (df ← Pd.read_csv local_file_path;
               let headers := Pd.columns df in
               Pd.to_csv df local_file_path;;
               log INFO ("Заголовки успешно прочитаны: " ++ repr (PyList (map PyStr headers)));;
               mret (inr headers))
              (fun e =>
               flash ("Ошибка при чтении CSV файла: " ++ message e) "danger";;
               log ERROR ("Ошибка при чтении CSV файла: " ++ message e);;
               mret (inl (redirect (url_for "index" []))));
            match parsed with
            | inl early => mret early
            | inr headers =>
                u ← perform Uuid4;
                let hdfs_directory : string := "/projects/vlgmic_" ++ str u in
                Hdfs.mkdirs webhdfs_client hdfs_directory;;
                let hdfs_file_path : string := hdfs_directory ++ "/" ++ filename local_csv_path in
                uploaded ← try_except
                  (data_node_url ← Hdfs.upload_file webhdfs_client local_file_path hdfs_file_path;
                   (if truthy data_node_url then
                      Hdfs.write_file webhdfs_client data_node_url local_file_path;;
                      log INFO ("Файл " ++ filename local_csv_path
                                ++ " успешно загружен на HDFS в " ++ hdfs_file_path ++ ".")
                    else mret tt);;
                   mret None)
                  (fun e =>
                   flash ("Ошибка при загрузке файла на HDFS: " ++ message e) "danger";;
                   log ERROR ("Ошибка при загрузке файла на HDFS: " ++ message e);;
                   Hdfs.delete_file webhdfs_client (PyStr hdfs_directory) true;;
                   log INFO ("Удаление директории: " ++ hdfs_directory);;
                   mret (Some (redirect (url_for "index" []))));
                match uploaded with
                | Some early => mret early
                | None =>
                    Os.remove local_file_path;;
                    mret (render_template "columns_input.html"
                            [("headers", PyList (map PyStr headers));
                             ("hdfs_directory", PyStr hdfs_directory);
                             ("hdfs_file_path", PyStr hdfs_file_path)])
                end
            end
      end
  | GET => mret (render_template "index.html" [])
  end.

(** [columns_input], the handler of [/columns_input]. *)
Definition columns_input (request : request) : M response :=
  let hdfs_file_path := form_get request "hdfs_file_path" in
  let hdfs_directory := form_get request "hdfs_directory" in
  let table_name := form_get request "table_name" in
  let columns_info := form_getlist request "columns_info" in
  let types_info := form_getlist request "types_info" in
  let delimiter := form_get request "delimiter" in
  if negb (truthy hdfs_file_path) || negb (truthy table_name)
     || negb (truthy (PyList (map PyStr columns_info)))
     || negb (truthy (PyList (map PyStr types_info)))
     || negb (truthy delimiter)
  then
    flash "Не все данные были переданы." "danger";;
    mret (redirect (url_for "index" []))
  else
    let columns_definition : string :=
      join ", " (map (fun ct => (fst ct ++ " " ++ snd ct)%string) (zip columns_info types_info)) in
    step1 ← try_except
      (conn ← Psycopg2.connect (DB_PARAMS cfg);
       create_external_table conn (SCHEMA_EXTERNAL cfg) (str table_name) (str hdfs_file_path)
         columns_definition (str delimiter);;
       mret (inr conn))
      (fun e =>
       flash ("Ошибка при создании внешней таблицы: " ++ message e) "danger";;
       log ERROR ("Ошибка при создании внешней таблицы: " ++ message e);;
       mret (inl (redirect (url_for "index" []))));
    match step1 with
    | inl early => mret early
    | inr conn =>
        step2 ← try_except
          (create_table_from_external conn (SCHEMA_INTERNAL cfg)
             (SCHEMA_EXTERNAL cfg ++ "." ++ str table_name) (str table_name);;
           mret None)
          (fun e =>
           flash ("Ошибка при создании таблицы: " ++ message e) "danger";;
           log ERROR ("Ошибка при создании таблицы: " ++ message e);;
           mret (Some (redirect (url_for "index" []))));
        match step2 with
        | Some early => mret early
        | None =>
            step3 ← try_except
              (drop_external_table conn (SCHEMA_EXTERNAL cfg ++ "." ++ str table_name);;
               mret None)
              (fun e =>
               flash ("Ошибка при удалении внешней таблицы: " ++ message e) "danger";;
               log ERROR ("Ошибка при удалении внешней таблицы: " ++ message e);;
               mret (Some (redirect (url_for "index" []))));
            match step3 with
            | Some early => mret early
            | None =>
                Hdfs.delete_file webhdfs_client hdfs_directory true;;
                log INFO ("Удаление директории: " ++ str hdfs_directory);;
                mret (redirect (url_for "success"
                        [("external_table_name", table_name);
                         ("internal_table_name", table_name)]))
            end
        end
    end.

End App.

(** ** Reading a run *)

(** What a run added to the trace. *)
Definition events_since (w w' : world) : list event :=
  drop (List.length (trace w)) (trace w').

(** The calls that reach the remote file system or the database. *)
Definition is_hdfs_call (c : call) : bool :=
  match c with
  | NewClient _ _ | ListStatus _ _ | Mkdirs _ _ | UploadFile _ _ _
  | WriteFile _ _ _ _ | DeleteFile _ _ _ => true
  | _ => false
  end.

Definition is_db_call (c : call) : bool :=
  match c with
  | DbConnect _ | DbCursor | DbExecute _ | DbCommit => true
  | _ => false
  end.

Definition is_delete (c : call) : bool :=
  match c with DeleteFile _ _ _ => true | _ => false end.

Definition is_upload (c : call) : bool :=
  match c with UploadFile _ _ _ => true | _ => false end.

Definition outward (e : event) : bool :=
  match e with
  | Called c _ => is_hdfs_call c || is_db_call c
  | _ => false
  end.

(** The statements handed to [cursor.execute], in order. *)
Definition executed (evs : list event) : list string :=
  omap (fun e => match e with Called (DbExecute q) _ => Some q | _ => None end) evs.

(** The [delete_file] calls made, in order. *)
Definition delete_calls (evs : list event) : list call :=
  omap (fun e =>
    match e with
    | Called (DeleteFile c p r) _ => Some (DeleteFile c p r)
    | _ => None
    end) evs.

(** The [write_file] calls made, in order. *)
Definition write_calls (evs : list event) : list call :=
  omap (fun e =>
    match e with
    | Called (WriteFile c u l d) _ => Some (WriteFile c u l d)
    | _ => None
    end) evs.

(** A form field is present when [request.form.get] yields a non-empty string. *)
Definition present (r : request) (k : string) : Prop :=
  exists v, form_get r k = PyStr v /\ v <> "".

(** The fields [columns_input] requires. *)
Definition required_present (r : request) : Prop :=
  present r "hdfs_file_path" /\ present r "table_name"
  /\ form_getlist r "columns_info" <> [] /\ form_getlist r "types_info" <> []
  /\ present r "delimiter".

(** *** The database steps of [columns_input] *)

Section Steps.

Variable cfg : config.
Variable req : request.

(** [columns_definition] *)
Definition columns_definition : string :=
  join ", " (map (fun ct => (fst ct ++ " " ++ snd ct)%string)
               (zip (form_getlist req "columns_info") (form_getlist req "types_info"))).

(** The three statements of a submission. *)
Definition external_query : string :=
  create_external_query (SCHEMA_EXTERNAL cfg) (str (form_get req "table_name"))
    (str (form_get req "hdfs_file_path")) columns_definition (str (form_get req "delimiter")).

Definition materialize_query : string :=
  create_table_query (SCHEMA_INTERNAL cfg)
    (SCHEMA_EXTERNAL cfg ++ "." ++ str (form_get req "table_name"))
    (str (form_get req "table_name")).

Definition drop_query : string :=
  drop_external_query (SCHEMA_EXTERNAL cfg ++ "." ++ str (form_get req "table_name")).

(** The bodies of the three [try] blocks: create the external mapping (on a
    fresh connection), materialize, drop the external mapping. *)
Definition create_step : M Psycopg2.connection :=
  conn ← Psycopg2.connect (DB_PARAMS cfg);
  create_external_table conn (SCHEMA_EXTERNAL cfg) (str (form_get req "table_name"))
    (str (form_get req "hdfs_file_path")) columns_definition (str (form_get req "delimiter"));;
  mret conn.

Definition materialize_step (conn : Psycopg2.connection) : M unit :=
  create_table_from_external conn (SCHEMA_INTERNAL cfg)
    (SCHEMA_EXTERNAL cfg ++ "." ++ str (form_get req "table_name"))
    (str (form_get req "table_name")).

Definition drop_step (conn : Psycopg2.connection) : M unit :=
  drop_external_table conn (SCHEMA_EXTERNAL cfg ++ "." ++ str (form_get req "table_name")).

(** The three steps one after the other, with nothing caught. *)
Definition db_steps : M unit :=
  conn ← create_step;
  materialize_step conn;;
  drop_step conn.

(** What follows the three steps: the cleanup and the answer. *)
Definition cleanup (webhdfs_client : client) : M response :=
  Hdfs.delete_file webhdfs_client (form_get req "hdfs_directory") true;;
  log INFO ("Удаление директории: " ++ str (form_get req "hdfs_directory"));;
  mret (redirect (url_for "success"
          [("external_table_name", form_get req "table_name");
           ("internal_table_name", form_get req "table_name")])).

End Steps.

(** The state after an [except] branch flashed and logged [prefix ++ str(e)]. *)
Definition reported (prefix : string) (e : exn) (w : world) : world :=
  emit (Logged ERROR (prefix ++ message e)) (emit (Flashed (prefix ++ message e) "danger") w).

(** The messages of the three [except] branches. *)
Definition step_messages : list string :=
  ["Ошибка при создании внешней таблицы: ";
   "Ошибка при создании таблицы: ";
   "Ошибка при удалении внешней таблицы: "].

(** The statements a trace committed: those executed without error before a
    [commit] that returned.  A statement whose own call or whose commit
    raised is not among them. *)
Fixpoint committed_from (pending : list string) (evs : list event) : list string :=
  match evs with
  | [] => []
  | Called (DbExecute q) (inr _) :: evs' => committed_from (pending ++ [q]) evs'
  | Called DbCommit (inr _) :: evs' => pending ++ committed_from [] evs'
  | Called DbCommit (inl _) :: evs' => committed_from [] evs'
  | _ :: evs' => committed_from pending evs'
  end.

Definition committed (evs : list event) : list string := committed_from [] evs.

(** A submission is rejected before any remote or database call: the run
    answers with the redirect to the upload form and made no outward call. *)
Definition rejected_before_any_call
    (cfg : config) (c : client) (req : request) (env : environment) (w : world) : Prop :=
  (columns_input cfg c req env w).2 = inr (redirect (url_for "index" []))
  /\ Forall (fun e => outward e = false) (events_since w (columns_input cfg c req env w).1).

(** *** The upload of [index] *)

(** A POST that carries the file part [f] under [csv_file], with a name. *)
Definition uploads (req : request) (f : FileStorage) : Prop :=
  method req = POST /\ files req !! "csv_file" = Some f /\ filename f <> "".

(** The local directories once [temp] was made sure of. *)
Definition temp_dirs (w : world) : gset string :=
  if bool_decide ("temp" ∈ local_dirs w) || bool_decide (is_Some (local_files w !! "temp"))
  then local_dirs w
  else {["temp"]} ∪ local_dirs w.

(** What [index] does once the headers are read: the remote staging, the
    removal of the local copy and the mapping form. *)
Definition stage_remotely (webhdfs_client : client) (local_csv_path : FileStorage)
    (headers : list string) (local_file_path : string) : M response :=
  u ← perform Uuid4;
  let hdfs_directory : string := "/projects/vlgmic_" ++ str u in
  Hdfs.mkdirs webhdfs_client hdfs_directory;;
  let hdfs_file_path : string := hdfs_directory ++ "/" ++ filename local_csv_path in
  uploaded ← try_except
    (data_node_url ← Hdfs.upload_file webhdfs_client local_file_path hdfs_file_path;
     (if truthy data_node_url then
        Hdfs.write_file webhdfs_client data_node_url local_file_path;;
        log INFO ("Файл " ++ filename local_csv_path
                  ++ " успешно загружен на HDFS в " ++ hdfs_file_path ++ ".")
      else mret tt);;
     mret None)
    (fun e =>
     flash ("Ошибка при загрузке файла на HDFS: " ++ message e) "danger";;
     log ERROR ("Ошибка при загрузке файла на HDFS: " ++ message e);;
     Hdfs.delete_file webhdfs_client (PyStr hdfs_directory) true;;
     log INFO ("Удаление директории: " ++ hdfs_directory);;
     mret (Some (redirect (url_for "index" []))));
  match uploaded with
  | Some early => mret early
  | None =>
      Os.remove local_file_path;;
      mret (render_template "columns_input.html"
              [("headers", PyList (map PyStr headers));
               ("hdfs_directory", PyStr hdfs_directory);
               ("hdfs_file_path", PyStr hdfs_file_path)])
  end.

(** The mapping form for the headers, the identifier [uuid4] gave and the
    name of the file. *)
Definition mapping_form (headers : list string) (u : pyval) (name : string) : response :=
  render_template "columns_input.html"
    [("headers", PyList (map PyStr headers));
     ("hdfs_directory", PyStr ("/projects/vlgmic_" ++ str u));
     ("hdfs_file_path", PyStr ("/projects/vlgmic_" ++ str u ++ "/" ++ name))].













(** The upload step raised: [upload_file] or [write_file] did. *)
Definition upload_raised (evs : list event) : bool :=
  existsb (fun e =>
    match e with
    | Called (UploadFile _ _ _) (inl _) | Called (WriteFile _ _ _ _) (inl _) => true
    | _ => false
    end) evs.

(** The upload step ended without raising: [upload_file] returned no write
    target, or [write_file] returned. *)
Definition upload_completed (evs : list event) : bool :=
  existsb (fun e =>
    match e with
    | Called (UploadFile _ _ _) (inr v) => negb (truthy v)
    | Called (WriteFile _ _ _ _) (inr _) => true
    | _ => false
    end) evs.

(** What a trace holds after the first raised [upload_file] or [write_file]. *)
Fixpoint after_upload_failure (evs : list event) : list event :=
  match evs with
  | [] => []
  | e :: evs' =>
      match e with
      | Called (UploadFile _ _ _) (inl _) | Called (WriteFile _ _ _ _) (inl _) => evs'
      | _ => after_upload_failure evs'
      end
  end.

(** The staging directory for the identifier [uuid4] gave. *)
Definition staging_directory (u : pyval) : string := "/projects/vlgmic_" ++ str u.


(** *** The cleanup calls *)

(** How a handler that answers [answer] treats its [delete_file] calls when
    they are not guarded: a call that returns is followed by one log record
    and the answer; a call that raises ends the run with that exception. *)
Definition unguarded_delete (out : world * (exn + response)) (evs : list event)
    (answer : response) : Prop :=
  forall d o, In (Called d o) evs ->
    match d with
    | DeleteFile _ _ _ =>
        match o with
        | inl e => out.2 = inl e /\ last evs = Some (Called d o)
        | inr _ =>
            out.2 = inr answer
            /\ exists pre m, evs = (pre ++ [Called d o; Logged INFO m])%list
        end
    | _ => True
    end.

(** *** The endpoint *)

(** The body of each [try] of [init_webhdfs_client]: build a client for the
    endpoint and list its root. *)
Definition probe (url user : string) : M client :=
  client ← Hdfs.new url user;
  Hdfs.list_status client "/";;
  mret client.

(** The events of a probe that answered: the client was built for the
    endpoint and the listing of its root returned. *)
Definition probe_answered (url user : string) (evs : list event) : Prop :=
  exists v v',
    evs = [Called (NewClient url user) (inr v);
           Called (ListStatus (WebHDFSClient url user) "/") (inr v')].

(** The events of a probe that failed with [e]: the constructor raised [e],
    or it returned and the listing of the root raised [e]. *)
Definition probe_failed (url user : string) (evs : list event) (e : exn) : Prop :=
  evs = [Called (NewClient url user) (inl e)]
  \/ exists v,
       evs = [Called (NewClient url user) (inr v);
              Called (ListStatus (WebHDFSClient url user) "/") (inl e)].

(** The text of the critical record and of the exception of a start-up
    that found no endpoint. *)
Definition startup_failure : string :=
  "Не удалось подключиться к HDFS (ни primary, ни standby).".

(** An event that stays with the client [c]: no client is built, no
    endpoint is probed, and every file-system call goes to [c]. *)
Definition on_client (c : client) (e : event) : Prop :=
  match e with
  | Called (NewClient _ _) _ | Called (ListStatus _ _) _ => False
  | Called (Mkdirs c' _) _ | Called (UploadFile c' _ _) _
  | Called (WriteFile c' _ _ _) _ | Called (DeleteFile c' _ _) _ => c' = c
  | _ => True
  end.

(** ** Sample configuration, environments and requests *)

Module Sample.

Definition cfg : config :=
  Config "http://nn1:9870" "http://nn2:9870" "hdfs" [("dbname", "dwh")] "ext" "int".

Definition primary : client := WebHDFSClient "http://nn1:9870" "hdfs".
Definition standby : client := WebHDFSClient "http://nn2:9870" "hdfs".

Definition w0 : world := World [] ∅ ∅.

(** Every collaborator answers. *)
Definition env_ok : environment := fun _ c =>
  match c with
  | Uuid4 => inr (PyStr "1b4e28ba")
  | UploadFile _ _ _ => inr (PyStr "http://dn1:9864/put")
  | _ => inr PyNone
  end.

(** As [env_ok], but the calls [bad] selects raise. *)
Definition env_failing (bad : call -> bool) : environment := fun t c =>
  if bad c then inl (Exception "boom") else env_ok t c.

Definition env_delete_fails : environment := env_failing is_delete.

Definition env_upload_fails : environment := env_failing is_upload.

Definition env_upload_and_delete_fail : environment :=
  env_failing (fun c => is_upload c || is_delete c).

(** [upload_file] hands back no write target. *)
Definition env_no_write_target : environment := fun t c =>
  match c with
  | UploadFile _ _ _ => inr PyNone
  | _ => env_ok t c
  end.

Definition data_csv : FileStorage :=
  {| filename := "data.csv"; stream := ["id,name"; "1,a"; "2,b"] |}.

Definition upload : request := Request POST {[ "csv_file" := data_csv ]} ∅.

Definition upload_without_file : request := Request POST ∅ ∅.

Definition mapping_fields (types : list string) : list (string * list string) :=
  [("hdfs_file_path", ["/projects/vlgmic_1b4e28ba/data.csv"]);
   ("table_name", ["t1"]);
   ("columns_info", ["id"; "name"]);
   ("types_info", types);
   ("delimiter", [","])].

(** The mapping of the spec's scenario. *)
Definition mapping : request :=
  Request POST ∅
    (list_to_map (("hdfs_directory", ["/projects/vlgmic_1b4e28ba"]) :: mapping_fields ["int"; "text"])).

(** Two column names, one type. *)
Definition mapping_short_types : request :=
  Request POST ∅
    (list_to_map (("hdfs_directory", ["/projects/vlgmic_1b4e28ba"]) :: mapping_fields ["int"])).

(** No [hdfs_directory] field. *)
Definition mapping_without_directory : request :=
  Request POST ∅ (list_to_map (mapping_fields ["int"; "text"])).

(** The materialize statement of [mapping] raises. *)
Definition env_materialize_fails : environment :=
  env_failing (fun c =>
    match c with
    | DbExecute q => String.eqb q (materialize_query cfg mapping)
    | _ => false
    end).

End Sample.

(** ** The other handlers *)

(** [request.args.get(k)]: the first value of the query parameter, or [None]. *)
Definition args_get (args : gmap string (list string)) (k : string) : pyval :=
  match args !! k with
  | Some (v :: _) => PyStr v
  | _ => PyNone
  end.

(** [success], the handler of [/success]. *)
Definition success (args : gmap string (list string)) : M response :=
  let external_table_name := args_get args "external_table_name" in
  let internal_table_name := args_get args "internal_table_name" in
  mret (render_template "success.html"
          [("external_table_name", external_table_name);
           ("internal_table_name", internal_table_name)]).

(** [assign_roles], the handler of [/assign_roles]. *)
Definition assign_roles (args : gmap string (list string)) : M response :=
  let table_name := args_get args "table_name" in
  mret (render_template "assign_roles.html" [("table_name", table_name)]).

(** [assign_roles_action], the handler of [/assign_roles_action]. *)
Definition assign_roles_action (cfg : config) (request : request) : M response :=
  let table_name := form_get request "table_name" in
  let username := form_get request "username" in
  let selected_role := form_get request "role" in
  try_except
    (conn ← Psycopg2.connect (DB_PARAMS cfg);
     cursor ← Psycopg2.cursor_of conn;
     Psycopg2.execute cursor
       ("GRANT " ++ str selected_role ++ " ON " ++ SCHEMA_INTERNAL cfg ++ "."
        ++ str table_name ++ " TO " ++ str username ++ ";");;
     Psycopg2.commit conn;;
     log INFO "Назначена роль {selected_role} пользователю {username} на таблицу {table_name}";;
     flash "Роль успешно назначена." "success")
    (fun e =>
     flash ("Ошибка при назначении роли: " ++ message e) "danger";;
     log ERROR ("Ошибка при назначении роли: " ++ message e));;
  mret (redirect (url_for "index" [])).

(** The statement [assign_roles_action] builds. *)
Definition grant_query (cfg : config) (req : request) : string :=
  "GRANT " ++ str (form_get req "role") ++ " ON " ++ SCHEMA_INTERNAL cfg ++ "."
  ++ str (form_get req "table_name") ++ " TO " ++ str (form_get req "username") ++ ";".

(** The query parameters of the request that follows a redirect: the
    values of [url_for] that are no part of the route (none of the routes
    of this program has a part), as text; [None] is left out and a list
    gives one parameter for each item. *)
Definition query_args (u : url) : gmap string (list string) :=
  match u with
  | url_for _ values =>
      list_to_map
        (omap (fun kv => match snd kv with
                         | PyNone => None
                         | PyList l => Some (fst kv, map str l)
                         | v => Some (fst kv, [str v])
                         end) values)
  end.

(** *** More readings of a run *)

(** The texts of the error records, in order. *)
Definition error_records (evs : list event) : list string :=
  omap (fun e => match e with Logged ERROR m => Some m | _ => None end) evs.

(** The flashed messages with their categories, in order. *)
Definition flashes (evs : list event) : list (string * string) :=
  omap (fun e => match e with Flashed m c => Some (m, c) | _ => None end) evs.

(** The calls made, with their answers, in order. *)
Definition calls (evs : list event) : list (call * outcome) :=
  omap (fun e => match e with Called c r => Some (c, r) | _ => None end) evs.

(** The last call of a run raised [e]. *)
Definition last_call_raised (evs : list event) (e : exn) : Prop :=
  exists c, last (calls evs) = Some (c, inl e).

(** The calls made, in order, whatever they answered. *)
Definition attempted (evs : list event) : list call := (calls evs).*1.

(** The calls that raised, with what they raised, in order. *)
Definition raised (evs : list event) : list (call * exn) :=
  omap (fun cr => match cr.2 with inl e => Some (cr.1, e) | inr _ => None end) (calls evs).

(** The three [try] blocks of [columns_input]. *)
Inductive step := CreateExternal | Materialize | DropExternal.

(** The database calls of [columns_input] in program order, each with the
    [try] block it stands in: [connect] and [create_external_table], then
    [create_table_from_external], then [drop_external_table]. *)
Definition db_script (cfg : config) (req : request) : list (step * call) :=
  [(CreateExternal, DbConnect (DB_PARAMS cfg));
   (CreateExternal, DbCursor);
   (CreateExternal, DbExecute (external_query cfg req));
   (CreateExternal, DbCommit);
   (Materialize, DbCursor);
   (Materialize, DbExecute (materialize_query cfg req));
   (Materialize, DbCommit);
   (DropExternal, DbCursor);
   (DropExternal, DbExecute (drop_query cfg req));
   (DropExternal, DbCommit)].

(** The message of the [except] branch of a block. *)
Definition step_message (s : step) : string :=
  match s with
  | CreateExternal => "Ошибка при создании внешней таблицы: "
  | Materialize => "Ошибка при создании таблицы: "
  | DropExternal => "Ошибка при удалении внешней таблицы: "
  end.

(** The statements of the blocks before [s]. *)
Definition committed_before (cfg : config) (req : request) (s : step) : list string :=
  match s with
  | CreateExternal => []
  | Materialize => [external_query cfg req]
  | DropExternal => [external_query cfg req; materialize_query cfg req]
  end.

(** No [commit] without a statement to commit: reading the trace from the
    left, every [commit] comes after an [execute] that returned, with no
    other [commit] and no failed [execute] in between. *)
Fixpoint commits_guarded (ready : bool) (evs : list event) : bool :=
  match evs with
  | [] => true
  | Called (DbExecute _) (inr _) :: evs' => commits_guarded true evs'
  | Called (DbExecute _) (inl _) :: evs' => commits_guarded false evs'
  | Called DbCommit _ :: evs' => ready && commits_guarded false evs'
  | _ :: evs' => commits_guarded ready evs'
  end.

(** The error record of [create_external_table]. *)
Definition helper_error (schema_name table_name : string) (e : exn) : string :=
  "Ошибка при создании внешней таблицы " ++ schema_name ++ "." ++ table_name
  ++ ": " ++ message e.

Module SampleRoles.

(** A role grant on the table of the scenario. *)
Definition grant : request :=
  Request POST ∅
    (list_to_map [("table_name", ["t1"]); ("username", ["alice"]); ("role", ["SELECT"])]).

(** A submission with no field at all. *)
Definition empty_grant : request := Request POST ∅ ∅.

Definition env_commit_fails : environment :=
  Sample.env_failing (fun c => match c with DbCommit => true | _ => false end).

Definition env_mkdirs_fails : environment :=
  Sample.env_failing (fun c => match c with Mkdirs _ _ => true | _ => false end).

Definition env_create_fails : environment :=
  Sample.env_failing (fun c =>
    match c with
    | DbExecute q => String.eqb q (external_query Sample.cfg Sample.mapping)
    | _ => false
    end).

(** The drop statement of the scenario's mapping raises. *)
Definition env_drop_fails : environment :=
  Sample.env_failing (fun c =>
    match c with
    | DbExecute q => String.eqb q (drop_query Sample.cfg Sample.mapping)
    | _ => false
    end).



End SampleRoles.

(** * Properties *)

(** ** Symbolic execution of a handler *)

Lemma events_since_app w evs d f :
  events_since w (World (trace w ++ evs) d f) = evs.
Proof. unfold events_since. simpl. apply drop_app_length. Qed.

Lemma events_since_emit w e : events_since w (emit e w) = [e].
Proof. unfold emit. apply events_since_app. Qed.

Ltac unfold_m :=
  cbv beta iota zeta delta
    [mbind mret M_bind M_ret bind ret raise try_except perform log flash print get_world
     Hdfs.new Hdfs.list_status Hdfs.mkdirs Hdfs.upload_file Hdfs.write_file Hdfs.delete_file
     Psycopg2.connect Psycopg2.cursor_of Psycopg2.execute Psycopg2.commit
     Os.path_exists Os.makedirs Os.remove Os.write_lines Os.read_lines
     Pd.read_csv Pd.to_csv save emit
     create_external_table create_table_from_external drop_external_table];
  cbn [trace local_dirs local_files fst snd].

(** Case analysis on the answer to the earliest call not yet decided. *)
Ltac split_call env :=
  match goal with
  | |- context [env ?t ?c] =>
      lazymatch t with
      | context [env _ _] => fail
      | _ => let E := fresh "E" in destruct (env t c) as [?e|?v] eqn:E
      end
  end;
  cbv beta iota; cbn [trace local_dirs local_files fst snd].

(** ** The required-fields check of [columns_input] *)

Lemma truthy_present r k : present r k -> truthy (form_get r k) = true.
Proof.
  intros (v & -> & Hv). simpl. destruct (String.eqb_spec v ""); [contradiction | reflexivity].
Qed.

Lemma truthy_absent r k : ~ present r k -> truthy (form_get r k) = false.
Proof.
  intros Hn. destruct (form_get r k) eqn:E; try reflexivity.
  - unfold form_get in E. destruct (form r !! k) as [[|]|]; discriminate.
  - simpl. destruct (String.eqb_spec s ""); [reflexivity|].
    exfalso. apply Hn. exists s. unfold present. rewrite E. auto.
  - unfold form_get in E. destruct (form r !! k) as [[|]|]; discriminate.
Qed.

Lemma truthy_strings (l : list string) :
  truthy (PyList (map PyStr l)) = negb (bool_decide (l = [])).
Proof. destruct l; reflexivity. Qed.

Lemma present_dec r k : {present r k} + {~ present r k}.
Proof.
  unfold present. destruct (form_get r k) as [| |s|] eqn:E.
  1,2,4: right; intros (v & H & _); discriminate.
  destruct (decide (s = "")) as [->|Hne].
  - right. intros (v & H & Hv). congruence.
  - left. eauto.
Defined.

Lemma required_present_dec r : {required_present r} + {~ required_present r}.
Proof.
  unfold required_present.
  destruct (present_dec r "hdfs_file_path"); [|right; tauto].
  destruct (present_dec r "table_name"); [|right; tauto].
  destruct (decide (form_getlist r "columns_info" = [])); [right; tauto|].
  destruct (decide (form_getlist r "types_info" = [])); [right; tauto|].
  destruct (present_dec r "delimiter"); [left; tauto | right; tauto].
Defined.

Lemma validation_passes r :
  required_present r ->
  negb (truthy (form_get r "hdfs_file_path")) || negb (truthy (form_get r "table_name"))
  || negb (truthy (PyList (map PyStr (form_getlist r "columns_info"))))
  || negb (truthy (PyList (map PyStr (form_getlist r "types_info"))))
  || negb (truthy (form_get r "delimiter")) = false.
Proof.
  intros (H1 & H2 & H3 & H4 & H5).
  rewrite !truthy_present by assumption. rewrite !truthy_strings.
  rewrite !bool_decide_eq_false_2 by assumption. reflexivity.
Qed.

Lemma validation_fails r :
  ~ required_present r ->
  negb (truthy (form_get r "hdfs_file_path")) || negb (truthy (form_get r "table_name"))
  || negb (truthy (PyList (map PyStr (form_getlist r "columns_info"))))
  || negb (truthy (PyList (map PyStr (form_getlist r "types_info"))))
  || negb (truthy (form_get r "delimiter")) = true.
Proof.
  intros Hn. rewrite !truthy_strings.
  destruct (present_dec r "hdfs_file_path") as [H1|H1];
    [|rewrite (truthy_absent _ _ H1); reflexivity].
  destruct (present_dec r "table_name") as [H2|H2];
    [|rewrite (truthy_absent _ _ H2), !orb_true_r; reflexivity].
  destruct (decide (form_getlist r "columns_info" = [])) as [H3|H3];
    [rewrite (bool_decide_eq_true_2 _ H3); simpl; rewrite !orb_true_r; reflexivity|].
  destruct (decide (form_getlist r "types_info" = [])) as [H4|H4];
    [rewrite (bool_decide_eq_true_2 _ H4); simpl; rewrite !orb_true_r; reflexivity|].
  destruct (present_dec r "delimiter") as [H5|H5];
    [|rewrite (truthy_absent _ _ H5), !orb_true_r; reflexivity].
  exfalso. apply Hn. repeat split; assumption.
Qed.

(** A submission that misses a required field is answered at once. *)
Lemma columns_input_missing cfg c req env w :
  ~ required_present req ->
  columns_input cfg c req env w
  = (emit (Flashed "Не все данные были переданы." "danger") w,
     inr (redirect (url_for "index" []))).
Proof. intros H. unfold columns_input. rewrite (validation_fails _ H). reflexivity. Qed.

(** A submission with the required fields opens a database connection first. *)
Lemma columns_input_connects cfg c req env w :
  required_present req ->
  exists rest,
    events_since w (columns_input cfg c req env w).1
    = Called (DbConnect (DB_PARAMS cfg)) (env (trace w) (DbConnect (DB_PARAMS cfg))) :: rest.
Proof.
  intros H. unfold columns_input. rewrite (validation_passes _ H). unfold_m.
  repeat split_call env; rewrite <- !app_assoc; simpl; rewrite events_since_app; eauto.
Qed.

Lemma rejected_iff_missing cfg c req env w :
  rejected_before_any_call cfg c req env w <-> ~ required_present req.
Proof.
  unfold rejected_before_any_call. split.
  - intros [_ Hall] Hp.
    destruct (columns_input_connects cfg c req env w Hp) as [rest Hrest].
    rewrite Hrest in Hall. inversion Hall as [|? ? Hhd _]. discriminate Hhd.
  - intros Hn. rewrite (columns_input_missing _ _ _ _ _ Hn). simpl.
    split; [reflexivity|]. rewrite events_since_emit. repeat constructor.
Qed.

(** C1, as the code has it: [columns_input] rejects a submission before any
    remote or database call exactly when one of [hdfs_file_path],
    [table_name], [delimiter] is missing or empty or one of [columns_info],
    [types_info] is empty.  The lengths of the two lists are not compared. *)
Theorem columns_input_rejects_iff_field_missing
    (cfg : config) (c : client) (req : request) (env : environment) (w : world) :
  rejected_before_any_call cfg c req env w <-> ~ required_present req.
Proof. apply rejected_iff_missing. Qed.

(** C1 as stated fails: two column names and one type are accepted, the
    database is called, and the table is created from the one pair [zip]
    keeps. *)
Lemma columns_input_accepts_unequal_lengths :
  List.length (form_getlist Sample.mapping_short_types "columns_info")
  <> List.length (form_getlist Sample.mapping_short_types "types_info")
  /\ ~ rejected_before_any_call Sample.cfg Sample.primary Sample.mapping_short_types
         Sample.env_ok Sample.w0
  /\ executed (trace (columns_input Sample.cfg Sample.primary Sample.mapping_short_types
                        Sample.env_ok Sample.w0).1)
     = [create_external_query "ext" "t1" "/projects/vlgmic_1b4e28ba/data.csv" "id int" ",";
        create_table_query "int" "ext.t1" "t1";
        drop_external_query "ext.t1"]
  /\ (columns_input Sample.cfg Sample.primary Sample.mapping_short_types
        Sample.env_ok Sample.w0).2
     = inr (redirect (url_for "success"
              [("external_table_name", PyStr "t1"); ("internal_table_name", PyStr "t1")])).
Proof.
  split; [vm_compute; discriminate|].
  split; [|split; vm_compute; reflexivity].
  intros [H _]. vm_compute in H. discriminate H.
Qed.

(** ** [index]: requests without a file *)

(** C8: a POST with no [csv_file] part, or with an empty file name, is
    answered by the redirect to the upload form; the run makes no call at
    all (only log and flash records) and leaves the local files as they
    were. *)
Theorem index_without_file_changes_nothing
    (c : client) (req : request) (env : environment) (w : world) :
  method req = POST ->
  (files req !! "csv_file" = None \/
   exists f, files req !! "csv_file" = Some f /\ filename f = "") ->
  exists evs,
    index c req env w
    = (World (trace w ++ evs) (local_dirs w) (local_files w),
       inr (redirect (url_for "index" [])))
    /\ Forall (fun e => match e with Called _ _ => False | _ => True end) evs.
Proof.
  intros Hm [Hnone | (f & Hf & Hname)]; unfold index; rewrite Hm.
  - unfold_m. rewrite Hnone. unfold_m. rewrite <- !app_assoc. simpl.
    eexists. split; [reflexivity|]. repeat constructor.
  - unfold_m. rewrite Hf, Hname. simpl. unfold_m. rewrite <- !app_assoc. simpl.
    eexists. split; [reflexivity|]. repeat constructor.
Qed.

Lemma index_without_file_witness :
  method Sample.upload_without_file = POST
  /\ files Sample.upload_without_file !! "csv_file" = None
  /\ exists evs,
       index Sample.primary Sample.upload_without_file Sample.env_ok Sample.w0
       = (World (trace Sample.w0 ++ evs) (local_dirs Sample.w0) (local_files Sample.w0),
          inr (redirect (url_for "index" [])))
       /\ Forall (fun e => match e with Called _ _ => False | _ => True end) evs.
Proof.
  split; [reflexivity|]. split; [reflexivity|].
  apply index_without_file_changes_nothing; [reflexivity | left; reflexivity].
Defined.

(** ** [columns_input]: the three database steps and the cleanup *)

Ltac unfold_steps :=
  unfold db_steps, create_step, materialize_step, drop_step, cleanup, reported,
    external_query, materialize_query, drop_query, columns_definition.

Ltac normalize_trace :=
  rewrite <- ?app_assoc; cbn [app]; rewrite ?events_since_app.

(** Both runs of a submission that passed the check, side by side: the
    handler and the three steps with nothing caught. *)
Ltac run_columns_input env H :=
  let w' := fresh "w'" in
  let r := fresh "r" in
  let wp := fresh "wp" in
  let rp := fresh "rp" in
  let Hout := fresh "Hout" in
  let Hplain := fresh "Hplain" in
  match goal with
  | |- context [columns_input ?cfg ?c ?req env ?w] =>
      destruct (columns_input cfg c req env w) as [w' r] eqn:Hout;
      destruct (db_steps cfg req env w) as [wp rp] eqn:Hplain;
      revert Hout Hplain;
      unfold columns_input; rewrite (validation_passes _ H);
      unfold_steps; unfold_m;
      repeat split_call env; intros [= <- <-] [= <- <-]; cbn [fst snd]; normalize_trace
  end.

(** The handler is the three steps, each in its [try], then the cleanup. *)
Lemma columns_input_run cfg c req env w :
  required_present req ->
  columns_input cfg c req env w =
  match create_step cfg req env w with
  | (w1, inl e) =>
      (reported "Ошибка при создании внешней таблицы: " e w1, inr (redirect (url_for "index" [])))
  | (w1, inr conn) =>
      match materialize_step cfg req conn env w1 with
      | (w2, inl e) =>
          (reported "Ошибка при создании таблицы: " e w2, inr (redirect (url_for "index" [])))
      | (w2, inr _) =>
          match drop_step cfg req conn env w2 with
          | (w3, inl e) =>
              (reported "Ошибка при удалении внешней таблицы: " e w3,
               inr (redirect (url_for "index" [])))
          | (w3, inr _) => cleanup req c env w3
          end
      end
  end.
Proof.
  intros H. unfold columns_input. rewrite (validation_passes _ H).
  unfold create_step, materialize_step, drop_step, cleanup, reported, columns_definition.
  unfold_m.
  repeat split_call env; reflexivity.
Qed.

(** What a run that passed the check executed and deleted, by the outcome
    of the three steps. *)
Lemma columns_input_summary cfg c req env w :
  required_present req ->
  match (db_steps cfg req env w).2 with
  | inr _ =>
      executed (events_since w (columns_input cfg c req env w).1)
      = [external_query cfg req; materialize_query cfg req; drop_query cfg req]
      /\ delete_calls (events_since w (columns_input cfg c req env w).1)
         = [DeleteFile c (form_get req "hdfs_directory") true]
  | inl _ => delete_calls (events_since w (columns_input cfg c req env w).1) = []
  end.
Proof.
  intros H. run_columns_input env H; try reflexivity; split; reflexivity.
Qed.

Ltac close_step :=
  eexists _, _, _;
  repeat (split; [first [reflexivity | cbn; eexists; reflexivity]|]); reflexivity.

(** C3: the database calls of a run follow one script: connect, then for
    the external mapping, for the table and for the drop of the mapping a
    cursor, the statement and a commit, in this order.  Either every call
    of the script returned: then the three statements were executed and
    committed in order and the run goes on to the one [delete_file].  Or
    the run stopped at the first call that raised: that call is the last
    call of the run, no later call of the script and no [delete_file] was
    made, the handler flashed and logged the message of the [try] block the
    call stands in and answered with the redirect to the upload form; what
    was committed are the statements of the blocks before it, so a mapping
    or a table that was created stays. *)
Theorem columns_input_database_steps
    (cfg : config) (c : client) (req : request) (env : environment) (w : world) :
  required_present req ->
  let out := columns_input cfg c req env w in
  let evs := events_since w out.1 in
  let script := db_script cfg req in
  let delete := DeleteFile c (form_get req "hdfs_directory") true in
  (attempted evs = (script.*2 ++ [delete])%list
   /\ Forall (fun ce => ce.1 = delete) (raised evs)
   /\ executed evs
      = [external_query cfg req; materialize_query cfg req; drop_query cfg req]
   /\ committed evs
      = [external_query cfg req; materialize_query cfg req; drop_query cfg req])
  \/ (exists n s cl e,
        script !! n = Some (s, cl)
        /\ attempted evs = take (S n) script.*2
        /\ raised evs = [(cl, e)]
        /\ last (calls evs) = Some (cl, inl e)
        /\ out.2 = inr (redirect (url_for "index" []))
        /\ flashes evs = [(step_message s ++ message e, "danger")]
        /\ last (error_records evs) = Some (step_message s ++ message e)
        /\ executed evs
           `prefix_of` [external_query cfg req; materialize_query cfg req; drop_query cfg req]
        /\ committed evs = committed_before cfg req s
        /\ delete_calls evs = []).
Proof.
  intros H out evs script delete. subst out evs script delete.
  destruct (columns_input cfg c req env w) as [w' r] eqn:Hout. revert Hout.
  unfold columns_input. rewrite (validation_passes _ H).
  unfold_steps. unfold_m.
  repeat split_call env; intros [= <- <-]; cbn [fst snd]; normalize_trace.
  all: first
    [ left; split; [reflexivity|]; split; [|split; reflexivity];
      solve [repeat constructor]
    | right; exists 0; solve [close_step]
    | right; exists 1; solve [close_step]
    | right; exists 2; solve [close_step]
    | right; exists 3; solve [close_step]
    | right; exists 4; solve [close_step]
    | right; exists 5; solve [close_step]
    | right; exists 6; solve [close_step]
    | right; exists 7; solve [close_step]
    | right; exists 8; solve [close_step]
    | right; exists 9; solve [close_step] ].
Qed.

Lemma sample_mapping_required : required_present Sample.mapping.
Proof.
  unfold required_present, present.
  repeat split; try (eexists; split; [vm_compute; reflexivity | discriminate]);
    vm_compute; discriminate.
Qed.

(** The run of the scenario's mapping stopped at the call of index [n0] of
    the script: what it flashed and what it committed. *)
Ltac failing_step H n0 :=
  let n := fresh "n" in
  let s := fresh "s" in
  let cl := fresh "cl" in
  let e := fresh "e" in
  let Hs := fresh "Hs" in
  let Hatt := fresh "Hatt" in
  let Hr := fresh "Hr" in
  let Hf := fresh "Hf" in
  let Hc := fresh "Hc" in
  destruct H as [(Hatt & _) | (n & s & cl & e & Hs & Hatt & Hr & _ & _ & Hf & _ & _ & Hc & _)];
  [ vm_compute in Hatt; discriminate Hatt
  | assert (n = n0) as ->
      by (pose proof (lookup_lt_Some _ _ _ Hs) as Hlt;
          apply (f_equal List.length) in Hatt;
          rewrite length_take in Hatt;
          change (List.length (db_script Sample.cfg Sample.mapping).*2) with 10 in Hatt;
          change (List.length (db_script Sample.cfg Sample.mapping)) with 10 in Hlt;
          match type of Hatt with
          | ?l = _ => let k := eval vm_compute in l in change l with k in Hatt
          end;
          lia);
    vm_compute in Hs; injection Hs as <- <-;
    vm_compute in Hr; injection Hr as <-;
    vm_compute in Hf, Hc; split; [exact Hf | exact Hc] ].

Lemma columns_input_database_steps_witness :
  required_present Sample.mapping
  /\ (let evs := trace (columns_input Sample.cfg Sample.primary Sample.mapping
                          SampleRoles.env_create_fails Sample.w0).1 in
      flashes evs = [("Ошибка при создании внешней таблицы: boom", "danger")]
      /\ committed evs = [])
  /\ (let evs := trace (columns_input Sample.cfg Sample.primary Sample.mapping
                          Sample.env_materialize_fails Sample.w0).1 in
      flashes evs = [("Ошибка при создании таблицы: boom", "danger")]
      /\ committed evs = [external_query Sample.cfg Sample.mapping])
  /\ (let evs := trace (columns_input Sample.cfg Sample.primary Sample.mapping
                          SampleRoles.env_drop_fails Sample.w0).1 in
      flashes evs = [("Ошибка при удалении внешней таблицы: boom", "danger")]
      /\ committed evs = [external_query Sample.cfg Sample.mapping;
                          materialize_query Sample.cfg Sample.mapping])
  /\ (let evs := trace (columns_input Sample.cfg Sample.primary Sample.mapping
                          Sample.env_ok Sample.w0).1 in
      committed evs = [external_query Sample.cfg Sample.mapping;
                       materialize_query Sample.cfg Sample.mapping;
                       drop_query Sample.cfg Sample.mapping]).
Proof.
  split; [exact sample_mapping_required|].
  pose proof (columns_input_database_steps Sample.cfg Sample.primary Sample.mapping
                SampleRoles.env_create_fails Sample.w0 sample_mapping_required) as H1.
  pose proof (columns_input_database_steps Sample.cfg Sample.primary Sample.mapping
                Sample.env_materialize_fails Sample.w0 sample_mapping_required) as H2.
  pose proof (columns_input_database_steps Sample.cfg Sample.primary Sample.mapping
                SampleRoles.env_drop_fails Sample.w0 sample_mapping_required) as H3.
  pose proof (columns_input_database_steps Sample.cfg Sample.primary Sample.mapping
                Sample.env_ok Sample.w0 sample_mapping_required) as H4.
  cbv zeta in H1, H2, H3, H4. cbv zeta.
  change (events_since Sample.w0 ?x) with (trace x) in H1, H2, H3, H4.
  split; [failing_step H1 2|].
  split; [failing_step H2 5|].
  split; [failing_step H3 8|].
  destruct H4 as [(_ & _ & _ & Hc) | (n & s & cl & e & _ & _ & Hr & _)].
  - exact Hc.
  - vm_compute in Hr. discriminate Hr.
Defined.

(** The spec's scenario of a failing materialize step: the mapping is
    created and committed, the table is not, the mapping is not dropped. *)
Example materialize_fails_scenario :
  committed (trace (columns_input Sample.cfg Sample.primary Sample.mapping
                      Sample.env_materialize_fails Sample.w0).1)
  = [external_query Sample.cfg Sample.mapping]
  /\ executed (trace (columns_input Sample.cfg Sample.primary Sample.mapping
                        Sample.env_materialize_fails Sample.w0).1)
     = [external_query Sample.cfg Sample.mapping; materialize_query Sample.cfg Sample.mapping].
Proof. split; vm_compute; reflexivity. Qed.

(** C4: [delete_file] is called, once, on [hdfs_directory] and recursively,
    exactly when the submission passed the check and the three database
    steps all returned; otherwise it is not called. *)
Theorem delete_iff_database_steps_succeeded
    (cfg : config) (c : client) (req : request) (env : environment) (w : world) :
  let calls := delete_calls (events_since w (columns_input cfg c req env w).1) in
  let succeeded := required_present req /\ (db_steps cfg req env w).2 = inr tt in
  (calls = [DeleteFile c (form_get req "hdfs_directory") true] <-> succeeded)
  /\ (calls = [] <-> ~ succeeded).
Proof.
  intros calls succeeded. subst calls succeeded.
  destruct (required_present_dec req) as [Hp|Hn].
  - pose proof (columns_input_summary cfg c req env w Hp) as Hs.
    destruct (db_steps cfg req env w).2 as [e|[]].
    + rewrite Hs. split; split.
      * discriminate.
      * intros [_ Hd]. discriminate Hd.
      * intros _ [_ Hd]. discriminate Hd.
      * reflexivity.
    + destruct Hs as [_ ->]. split; split.
      * auto.
      * reflexivity.
      * discriminate.
      * intros Hn. exfalso. apply Hn. auto.
  - rewrite (columns_input_missing _ _ _ _ _ Hn). cbn [fst]. rewrite events_since_emit.
    split; split.
    + discriminate.
    + intros [Hp _]. contradiction.
    + intros _ [Hp _]. contradiction.
    + reflexivity.
Qed.

(** The spec's scenario of a successful submission: the three statements
    are committed in order, the staging directory is deleted, the user is
    sent to [/success]. *)
Example mapping_scenario :
  committed (trace (columns_input Sample.cfg Sample.primary Sample.mapping
                      Sample.env_ok Sample.w0).1)
  = [create_external_query "ext" "t1" "/projects/vlgmic_1b4e28ba/data.csv"
       "id int, name text" ",";
     create_table_query "int" "ext.t1" "t1";
     drop_external_query "ext.t1"]
  /\ delete_calls (trace (columns_input Sample.cfg Sample.primary Sample.mapping
                            Sample.env_ok Sample.w0).1)
     = [DeleteFile Sample.primary (PyStr "/projects/vlgmic_1b4e28ba") true]
  /\ (columns_input Sample.cfg Sample.primary Sample.mapping Sample.env_ok Sample.w0).2
     = inr (redirect (url_for "success"
              [("external_table_name", PyStr "t1"); ("internal_table_name", PyStr "t1")])).
Proof. repeat split; vm_compute; reflexivity. Qed.

(** C10: without an [hdfs_directory] field the check still rejects exactly
    the submissions that miss one of the five other fields; a submission
    that has those five runs the three statements and, when they succeed,
    calls [delete_file] with [None] for the path. *)
Theorem missing_directory_reaches_delete
    (cfg : config) (c : client) (req : request) (env : environment) (w : world) :
  form req !! "hdfs_directory" = None ->
  (rejected_before_any_call cfg c req env w <-> ~ required_present req)
  /\ (required_present req -> (db_steps cfg req env w).2 = inr tt ->
      executed (events_since w (columns_input cfg c req env w).1)
      = [external_query cfg req; materialize_query cfg req; drop_query cfg req]
      /\ delete_calls (events_since w (columns_input cfg c req env w).1)
         = [DeleteFile c PyNone true]).
Proof.
  intros Hdir. split; [apply rejected_iff_missing|].
  intros Hp Hok. pose proof (columns_input_summary cfg c req env w Hp) as Hs.
  rewrite Hok in Hs. destruct Hs as [He Hd]. split; [exact He|].
  rewrite Hd. unfold form_get. rewrite Hdir. reflexivity.
Qed.

Lemma sample_without_directory_required : required_present Sample.mapping_without_directory.
Proof.
  unfold required_present, present.
  repeat split; try (eexists; split; [vm_compute; reflexivity | discriminate]);
    vm_compute; discriminate.
Qed.

Lemma missing_directory_witness :
  form Sample.mapping_without_directory !! "hdfs_directory" = None
  /\ required_present Sample.mapping_without_directory
  /\ (db_steps Sample.cfg Sample.mapping_without_directory Sample.env_ok Sample.w0).2 = inr tt
  /\ delete_calls
       (events_since Sample.w0
          (columns_input Sample.cfg Sample.primary Sample.mapping_without_directory
             Sample.env_ok Sample.w0).1)
     = [DeleteFile Sample.primary PyNone true].
Proof.
  split; [vm_compute; reflexivity|].
  split; [exact sample_without_directory_required|].
  split; [vm_compute; reflexivity|].
  apply (missing_directory_reaches_delete Sample.cfg Sample.primary
           Sample.mapping_without_directory Sample.env_ok Sample.w0).
  - vm_compute; reflexivity.
  - exact sample_without_directory_required.
  - vm_compute; reflexivity.
Defined.

(** ** [index]: the upload *)

Lemma filename_nonempty (f : FileStorage) : filename f <> "" -> String.eqb (filename f) "" = false.
Proof. intros H. destruct (String.eqb_spec (filename f) ""); [contradiction | reflexivity]. Qed.

(** [index] on an upload: save, read the headers, then stage remotely. *)
Lemma index_run c req f env w :
  uploads req f ->
  index c req env w =
  match Pd.parse_csv (stream f) with
  | inl e =>
      (World (trace w ++ [Logged INFO ("Ключи в request.files: " ++ dict_keys req);
                          Flashed ("Ошибка при чтении CSV файла: " ++ message e) "danger";
                          Logged ERROR ("Ошибка при чтении CSV файла: " ++ message e)])
         (temp_dirs w)
         (<[Os.path_join "temp" (filename f) := stream f]> (local_files w)),
       inr (redirect (url_for "index" [])))
  | inr df =>
      stage_remotely c f (Pd.columns df) (Os.path_join "temp" (filename f)) env
        (World (trace w ++ [Logged INFO ("Ключи в request.files: " ++ dict_keys req);
                            Logged INFO ("Заголовки успешно прочитаны: "
                                         ++ repr (PyList (map PyStr (Pd.columns df))))])
           (temp_dirs w)
           (<[Os.path_join "temp" (filename f) := Pd.csv_lines df]> (local_files w)))
  end.
Proof.
  intros (Hm & Hf & Hname). unfold index. rewrite Hm.
  unfold_m. rewrite Hf. rewrite (filename_nonempty _ Hname).
  unfold temp_dirs. unfold_m.
  destruct (bool_decide ("temp" ∈ local_dirs w) || bool_decide (is_Some (local_files w !! "temp")))
    eqn:Hex; cbn [negb]; cbv beta iota; cbn [trace local_dirs local_files];
    rewrite ?Hex; cbv beta iota; cbn [trace local_dirs local_files];
    rewrite ?lookup_insert_eq; cbv beta iota.
  all: destruct (Pd.parse_csv (stream f)) as [e|df]; cbv beta iota;
    cbn [trace local_dirs local_files].
  all: try (rewrite <- ?app_assoc; reflexivity).
  all: unfold stage_remotely; unfold_m; rewrite ?insert_insert_eq, <- ?app_assoc;
    reflexivity.
Qed.

Ltac split_truthy :=
  match goal with
  | |- context [truthy ?v] => let Ht := fresh "Ht" in destruct (truthy v) eqn:Ht
  end.

(** The runs of [index] on an upload, one goal for each. *)
Ltac index_cases env Hup :=
  match goal with
  | |- context [index ?c ?req env ?w] =>
      let w' := fresh "w'" in
      let r := fresh "r" in
      let Hout := fresh "Hout" in
      destruct (index c req env w) as [w' r] eqn:Hout;
      rewrite (index_run _ _ _ _ _ Hup) in Hout; revert Hout;
      destruct (Pd.parse_csv (stream _)) as [?e|?df] eqn:?Hparse;
      [ | unfold stage_remotely; unfold_m; rewrite ?lookup_insert_eq; cbv beta iota;
          repeat (first [split_call env | split_truthy];
                  cbv beta iota; cbn [trace local_dirs local_files fst snd];
                  rewrite ?lookup_insert_eq; cbv beta iota;
                  cbn [trace local_dirs local_files fst snd]) ];
      idtac
  end.

Ltac run_index env Hup :=
  index_cases env Hup; intros [= <- <-]; cbn [fst snd]; normalize_trace.

Ltac in_cases H :=
  cbn [In] in H;
  repeat (destruct H as [H|H]; [try discriminate H|]); try contradiction.

(** C9: when [upload_file] returns a falsy write target, [write_file] is
    not called, nothing is raised, the local copy is removed, and the
    answer is the mapping form of a successful upload. *)
Theorem index_without_write_target
    (c : client) (req : request) (f : FileStorage) (env : environment) (w : world) :
  uploads req f ->
  forall c' l r v,
    In (Called (UploadFile c' l r) (inr v)) (events_since w (index c req env w).1) ->
    truthy v = false ->
    write_calls (events_since w (index c req env w).1) = []
    /\ (local_files (index c req env w).1) !! Os.path_join "temp" (filename f) = None
    /\ exists df u,
         Pd.parse_csv (stream f) = inr df
         /\ In (Called Uuid4 (inr u)) (events_since w (index c req env w).1)
         /\ (index c req env w).2 = inr (mapping_form (Pd.columns df) u (filename f)).
Proof.
  intros Hup c' l r v Hin Hv. revert Hin.
  run_index env Hup; intros Hin; in_cases Hin.
  all: inversion Hin; subst; try congruence.
  split; [reflexivity|]. split; [apply lookup_delete_eq|].
  eexists _, _. split; [reflexivity|]. split; [cbn; tauto|]. reflexivity.
Qed.

Lemma index_without_write_target_witness :
  uploads Sample.upload Sample.data_csv
  /\ truthy PyNone = false
  /\ write_calls
       (events_since Sample.w0
          (index Sample.primary Sample.upload Sample.env_no_write_target Sample.w0).1) = []
  /\ (local_files (index Sample.primary Sample.upload Sample.env_no_write_target Sample.w0).1)
       !! "temp/data.csv" = None.
Proof.
  assert (Hup : uploads Sample.upload Sample.data_csv).
  { split; [reflexivity|]. split; [reflexivity | discriminate]. }
  split; [exact Hup|]. split; [reflexivity|].
  destruct (index_without_write_target Sample.primary Sample.upload Sample.data_csv
              Sample.env_no_write_target Sample.w0 Hup
              Sample.primary "temp/data.csv" "/projects/vlgmic_1b4e28ba/data.csv" PyNone)
    as (Hw & Hl & _).
  - vm_compute. repeat (first [left; reflexivity | right]).
  - reflexivity.
  - split; assumption.
Defined.

(** The local copy is there after every run but those that reached
    [os.remove]. *)
Lemma local_copy_kept (p : string) (lines : list string) (m : gmap string (list string)) :
  (<[p := lines]> m) !! p = None <-> False.
Proof. rewrite lookup_insert_eq. split; [discriminate | contradiction]. Qed.

(** C5, as the code has it: when [upload_file] or [write_file] raises,
    [index] flashes and logs the error, then calls [delete_file] on the
    staging directory it created, recursively; when that call returns it
    logs the deletion and redirects to the upload form, when it raises the
    exception leaves the handler; the local copy is kept.  The local copy
    is removed exactly when the upload step ended without raising, which
    includes the case of no write target. *)
Theorem index_upload_failure_cleanup
    (c : client) (req : request) (f : FileStorage) (env : environment) (w : world) :
  uploads req f ->
  let out := index c req env w in
  let evs := events_since w out.1 in
  let p := Os.path_join "temp" (filename f) in
  (upload_raised evs = true ->
   is_Some (local_files out.1 !! p)
   /\ exists u v e o,
        In (Called Uuid4 (inr u)) evs
        /\ In (Called (Mkdirs c (staging_directory u)) (inr v)) evs
        /\ after_upload_failure evs
           = ([Flashed ("Ошибка при загрузке файла на HDFS: " ++ message e) "danger";
               Logged ERROR ("Ошибка при загрузке файла на HDFS: " ++ message e);
               Called (DeleteFile c (PyStr (staging_directory u)) true) o]
              ++ match o with
                 | inl _ => []
                 | inr _ => [Logged INFO ("Удаление директории: " ++ staging_directory u)]
                 end)%list
        /\ out.2 = match o with
                   | inl e' => inl e'
                   | inr _ => inr (redirect (url_for "index" []))
                   end)
  /\ (local_files out.1 !! p = None <-> upload_completed evs = true).
Proof.
  intros Hup out evs p. subst out evs p. unfold staging_directory.
  run_index env Hup.
  all: cbn [upload_raised upload_completed existsb orb local_files]; rewrite ?Ht; cbn [negb orb].
  all: rewrite ?lookup_insert_eq, ?lookup_delete_eq.
  all: split; [intros Hr; try discriminate Hr|].
  all: try (split; [discriminate | discriminate]).
  all: try (split; reflexivity).
  all: split; [eexists; reflexivity|].
  all: match goal with
       | |- context [Called (DeleteFile _ _ _) ?o] => eexists _, _, _, o
       end; split; [cbn; tauto|]; split; [cbn; tauto|]; split; reflexivity.
Qed.

Lemma sample_uploads : uploads Sample.upload Sample.data_csv.
Proof. split; [reflexivity|]. split; [reflexivity | discriminate]. Qed.

Lemma index_upload_failure_witness :
  uploads Sample.upload Sample.data_csv
  /\ upload_raised
       (events_since Sample.w0
          (index Sample.primary Sample.upload Sample.env_upload_fails Sample.w0).1) = true
  /\ is_Some
       ((local_files (index Sample.primary Sample.upload Sample.env_upload_fails Sample.w0).1)
          !! Os.path_join "temp" (filename Sample.data_csv)).
Proof.
  split; [exact sample_uploads|]. split; [vm_compute; reflexivity|].
  destruct (index_upload_failure_cleanup Sample.primary Sample.upload Sample.data_csv
              Sample.env_upload_fails Sample.w0 sample_uploads) as [Hfail _].
  destruct Hfail as [Hkept _]; [vm_compute; reflexivity | exact Hkept].
Defined.

(** C5 as stated fails twice.  With no write target nothing is uploaded and
    yet the local copy is removed; and when both the upload and the
    [delete_file] raise, the run ends with the exception and no redirect. *)
Lemma index_removes_copy_without_upload :
  (write_calls
     (events_since Sample.w0
        (index Sample.primary Sample.upload Sample.env_no_write_target Sample.w0).1) = []
   /\ upload_raised
        (events_since Sample.w0
           (index Sample.primary Sample.upload Sample.env_no_write_target Sample.w0).1) = false
   /\ (local_files (index Sample.primary Sample.upload Sample.env_no_write_target Sample.w0).1)
        !! "temp/data.csv" = None)
  /\ (upload_raised
        (events_since Sample.w0
           (index Sample.primary Sample.upload Sample.env_upload_and_delete_fail Sample.w0).1)
      = true
      /\ (index Sample.primary Sample.upload Sample.env_upload_and_delete_fail Sample.w0).2
         = inl (Exception "boom")).
Proof. repeat split; vm_compute; reflexivity. Qed.

(** ** [index]: what is staged *)



















(** The spec's scenario: [data.csv] with header [id,name] and two rows. *)
Example upload_scenario :
  (index Sample.primary Sample.upload Sample.env_ok Sample.w0).2
  = inr (render_template "columns_input.html"
           [("headers", PyList [PyStr "id"; PyStr "name"]);
            ("hdfs_directory", PyStr "/projects/vlgmic_1b4e28ba");
            ("hdfs_file_path", PyStr "/projects/vlgmic_1b4e28ba/data.csv")])
  /\ write_calls (trace (index Sample.primary Sample.upload Sample.env_ok Sample.w0).1)
     = [WriteFile Sample.primary (PyStr "http://dn1:9864/put") "temp/data.csv"
          (Some ["1,a"; "2,b"])].
Proof. split; vm_compute; reflexivity. Qed.

(** ** Requests that are no upload *)

Lemma uploads_dec (req : request) : {f | uploads req f} + {forall f, ~ uploads req f}.
Proof.
  unfold uploads. destruct (method req) eqn:Hm.
  - right. intros f (H & _). discriminate H.
  - destruct (files req !! "csv_file") as [f|] eqn:Hf.
    + destruct (decide (filename f = "")) as [He|Hne].
      * right. intros f' (_ & H & Hn). injection H as <-. contradiction.
      * left. exists f. auto.
    + right. intros f (_ & H & _). discriminate H.
Defined.

Lemma world_eta (w : world) : w = World (trace w ++ []) (local_dirs w) (local_files w).
Proof. destruct w. cbn. rewrite app_nil_r. reflexivity. Qed.

(** A request that is no upload makes no call and leaves the local files
    alone. *)
Lemma index_no_upload c req env w :
  (forall f, ~ uploads req f) ->
  exists evs resp,
    index c req env w
    = (World (trace w ++ evs) (local_dirs w) (local_files w), inr resp)
    /\ Forall (fun e => match e with Called _ _ => False | _ => True end) evs.
Proof.
  intros Hno. unfold index. destruct (method req) eqn:Hm.
  - exists [], (render_template "index.html" []). split; [|constructor].
    unfold_m. f_equal. apply world_eta.
  - unfold_m. destruct (files req !! "csv_file") as [f|] eqn:Hf.
    + destruct (String.eqb_spec (filename f) "") as [He|Hne].
      * unfold_m. rewrite <- !app_assoc. eexists _, _. split; [reflexivity|].
        repeat constructor.
      * exfalso. apply (Hno f). repeat split; assumption.
    + unfold_m. rewrite <- !app_assoc. eexists _, _. split; [reflexivity|].
      repeat constructor.
Qed.

(** ** The cleanup calls are not guarded *)

Ltac split_last :=
  match goal with
  | |- exists pre m, ?evs = _ =>
      exists (removelast (removelast evs)); eexists; reflexivity
  end.

Ltac unguarded_cases :=
  let d := fresh "d" in
  let o := fresh "o" in
  let Hin := fresh "Hin" in
  intros d o Hin; in_cases Hin;
  (inversion Hin; subst; cbv beta iota;
   first [exact I | split; [reflexivity|]; first [reflexivity | split_last]]).

Lemma index_unguarded c req env w :
  unguarded_delete (index c req env w) (events_since w (index c req env w).1)
    (redirect (url_for "index" [])).
Proof.
  destruct (uploads_dec req) as [[f Hup]|Hno].
  - unfold unguarded_delete. run_index env Hup; unguarded_cases.
  - destruct (index_no_upload c req env w Hno) as (evs & resp & -> & Hall).
    cbn [fst]. rewrite events_since_app. intros d o Hin.
    rewrite Forall_forall in Hall. destruct (Hall (Called d o)).
    apply list_elem_of_In. exact Hin.
Qed.

Lemma columns_input_unguarded cfg c req env w :
  unguarded_delete (columns_input cfg c req env w)
    (events_since w (columns_input cfg c req env w).1)
    (redirect (url_for "success"
       [("external_table_name", form_get req "table_name");
        ("internal_table_name", form_get req "table_name")])).
Proof.
  destruct (required_present_dec req) as [Hp|Hn].
  - unfold unguarded_delete. run_columns_input env Hp; unguarded_cases.
  - rewrite (columns_input_missing _ _ _ _ _ Hn). cbn [fst]. rewrite events_since_emit.
    intros d o Hin. in_cases Hin.
Qed.

(** C2, as the code has it: at both cleanup sites [delete_file] is called
    outside any [try].  When it returns, the handler logs the deletion and
    answers with its redirect.  When it raises, the exception leaves the
    handler: the call is the last thing the run did, nothing is logged
    about it, and there is no redirect. *)
Theorem delete_failure_leaves_handler
    (cfg : config) (c : client) (req : request) (env : environment) (w : world) :
  unguarded_delete (index c req env w) (events_since w (index c req env w).1)
    (redirect (url_for "index" []))
  /\ unguarded_delete (columns_input cfg c req env w)
       (events_since w (columns_input cfg c req env w).1)
       (redirect (url_for "success"
          [("external_table_name", form_get req "table_name");
           ("internal_table_name", form_get req "table_name")])).
Proof. split; [apply index_unguarded | apply columns_input_unguarded]. Qed.

(** C2 as stated fails: a [delete_file] that raises ends the request with
    the exception, after the database steps as well as after a failed
    upload; the failed call is the last record of the run. *)
Lemma delete_failure_aborts_request :
  ((columns_input Sample.cfg Sample.primary Sample.mapping Sample.env_delete_fails Sample.w0).2
   = inl (Exception "boom")
   /\ last (trace (columns_input Sample.cfg Sample.primary Sample.mapping
                     Sample.env_delete_fails Sample.w0).1)
      = Some (Called (DeleteFile Sample.primary (PyStr "/projects/vlgmic_1b4e28ba") true)
                (inl (Exception "boom"))))
  /\ ((index Sample.primary Sample.upload Sample.env_upload_and_delete_fail Sample.w0).2
      = inl (Exception "boom")
      /\ last (trace (index Sample.primary Sample.upload
                        Sample.env_upload_and_delete_fail Sample.w0).1)
         = Some (Called (DeleteFile Sample.primary (PyStr "/projects/vlgmic_1b4e28ba") true)
                   (inl (Exception "boom")))).
Proof. repeat split; vm_compute; reflexivity. Qed.

(** ** The endpoint: chosen at start-up, kept afterwards *)

(** [startup] is the probe of the primary endpoint, then, only when that
    raised, the probe of the standby endpoint, then, only when that raised
    too, the critical log record and the exception. *)
Lemma startup_run cfg env w :
  startup cfg env w =
  match probe (primary_url cfg) (hdfs_username cfg) env w with
  | (w1, inr c) => (w1, inr c)
  | (w1, inl e) =>
      match probe (standby_url cfg) (hdfs_username cfg) env
              (emit (Logged ERROR ("Primary HDFS недоступен: " ++ message e
                                   ++ ". Пытаемся подключиться к standby.")) w1) with
      | (w2, inr c) => (w2, inr c)
      | (w2, inl e') =>
          (emit (Logged CRITICAL "Не удалось подключиться к HDFS (ни primary, ни standby).")
             (emit (Logged ERROR ("Standby HDFS недоступен: " ++ message e'
                                  ++ ". Не удалось подключиться к HDFS.")) w2),
           inl (Exception "Не удалось подключиться к HDFS (ни primary, ни standby)."))
      end
  end.
Proof.
  unfold startup, init_webhdfs_client, probe. unfold_m.
  repeat split_call env; reflexivity.
Qed.

(** A probe builds a client for its endpoint and lists the root there, and
    does nothing else; it returns that client, or raises what the
    constructor or the listing raised. *)
Lemma probe_run url user env w :
  probe url user env w =
  match env (trace w) (NewClient url user) with
  | inl e => (emit (Called (NewClient url user) (inl e)) w, inl e)
  | inr v =>
      let w1 := emit (Called (NewClient url user) (inr v)) w in
      match env (trace w1) (ListStatus (WebHDFSClient url user) "/") with
      | inl e => (emit (Called (ListStatus (WebHDFSClient url user) "/") (inl e)) w1, inl e)
      | inr v' =>
          (emit (Called (ListStatus (WebHDFSClient url user) "/") (inr v')) w1,
           inr (WebHDFSClient url user))
      end
  end.
Proof.
  unfold probe. unfold_m. repeat split_call env; reflexivity.
Qed.

Lemma index_on_client c req env w :
  Forall (on_client c) (events_since w (index c req env w).1).
Proof.
  destruct (uploads_dec req) as [[f Hup]|Hno].
  - run_index env Hup; repeat constructor.
  - destruct (index_no_upload c req env w Hno) as (evs & resp & -> & Hall).
    cbn [fst]. rewrite events_since_app.
    eapply Forall_impl; [exact Hall|]. intros [] H; cbn; tauto.
Qed.

Lemma columns_input_on_client cfg c req env w :
  Forall (on_client c) (events_since w (columns_input cfg c req env w).1).
Proof.
  destruct (required_present_dec req) as [Hp|Hn].
  - run_columns_input env Hp; repeat constructor.
  - rewrite (columns_input_missing _ _ _ _ _ Hn). cbn [fst]. rewrite events_since_emit.
    repeat constructor.
Qed.

Ltac close_probes :=
  repeat split;
  first [ reflexivity
        | left; reflexivity
        | right; eexists; reflexivity
        | eexists _, _; reflexivity ].

(** The events of [startup], in the three ways it can go. *)
Lemma startup_events cfg env w :
  let out := startup cfg env w in
  let evs := events_since w out.1 in
  let user := hdfs_username cfg in
  (out.2 = inr (WebHDFSClient (primary_url cfg) user)
   /\ probe_answered (primary_url cfg) user evs)
  \/ (exists pe e se,
        probe_failed (primary_url cfg) user pe e
        /\ probe_answered (standby_url cfg) user se
        /\ out.2 = inr (WebHDFSClient (standby_url cfg) user)
        /\ evs = (pe ++ [Logged ERROR ("Primary HDFS недоступен: " ++ message e
                                       ++ ". Пытаемся подключиться к standby.")]
                  ++ se)%list)
  \/ (exists pe e se e',
        probe_failed (primary_url cfg) user pe e
        /\ probe_failed (standby_url cfg) user se e'
        /\ out.2 = inl (Exception startup_failure)
        /\ evs = (pe ++ [Logged ERROR ("Primary HDFS недоступен: " ++ message e
                                       ++ ". Пытаемся подключиться к standby.")]
                  ++ se
                  ++ [Logged ERROR ("Standby HDFS недоступен: " ++ message e'
                                    ++ ". Не удалось подключиться к HDFS.");
                      Logged CRITICAL startup_failure])%list).
Proof.
  intros out evs user. subst out evs user.
  unfold probe_answered, probe_failed, startup_failure.
  destruct (startup cfg env w) as [w' r] eqn:Hout. revert Hout.
  unfold startup, init_webhdfs_client. unfold_m.
  repeat split_call env; intros [= <- <-]; cbn [fst snd]; normalize_trace.
  all: first
    [ left; split; [reflexivity | eexists _, _; reflexivity]
    | right; left; eexists [_], _, [_; _]; solve [close_probes]
    | right; left; eexists [_; _], _, [_; _]; solve [close_probes]
    | right; right; eexists [_], _, [_], _; solve [close_probes]
    | right; right; eexists [_], _, [_; _], _; solve [close_probes]
    | right; right; eexists [_; _], _, [_], _; solve [close_probes]
    | right; right; eexists [_; _], _, [_; _], _; solve [close_probes] ].
Qed.

Lemma assign_roles_action_on_client cfg c req env w :
  Forall (on_client c) (events_since w (assign_roles_action cfg req env w).1).
Proof.
  destruct (assign_roles_action cfg req env w) as [w' r] eqn:Hout. revert Hout.
  unfold assign_roles_action, grant_query. unfold_m.
  repeat split_call env; intros [= <- <-]; cbn [fst snd]; normalize_trace;
    repeat constructor.
Qed.

(** C7: the events of start-up are, in this order and nothing else, one of
    three runs.  The client of the primary endpoint is built and the
    listing of its root returns: that client is selected and the standby
    endpoint is not touched.  Or the primary probe failed (the constructor
    or the listing raised), which is logged, and then the standby client is
    built and its listing returns: the standby client is selected.  Or both
    probes failed, each logged, and start-up logs a critical record and
    raises.  Afterwards the handlers stay with the client they were given:
    whatever fails, their remote calls go to that client, they build no
    client and list no root. *)
Theorem endpoint_chosen_at_startup_only
    (cfg : config) (env : environment) (w : world) :
  let out := startup cfg env w in
  let evs := events_since w out.1 in
  let user := hdfs_username cfg in
  ((out.2 = inr (WebHDFSClient (primary_url cfg) user)
    /\ probe_answered (primary_url cfg) user evs)
   \/ (exists pe e se,
         probe_failed (primary_url cfg) user pe e
         /\ probe_answered (standby_url cfg) user se
         /\ out.2 = inr (WebHDFSClient (standby_url cfg) user)
         /\ evs = (pe ++ [Logged ERROR ("Primary HDFS недоступен: " ++ message e
                                        ++ ". Пытаемся подключиться к standby.")]
                   ++ se)%list)
   \/ (exists pe e se e',
         probe_failed (primary_url cfg) user pe e
         /\ probe_failed (standby_url cfg) user se e'
         /\ out.2 = inl (Exception startup_failure)
         /\ evs = (pe ++ [Logged ERROR ("Primary HDFS недоступен: " ++ message e
                                        ++ ". Пытаемся подключиться к standby.")]
                   ++ se
                   ++ [Logged ERROR ("Standby HDFS недоступен: " ++ message e'
                                     ++ ". Не удалось подключиться к HDFS.");
                       Logged CRITICAL startup_failure])%list))
  /\ (forall c req env' w',
        Forall (on_client c) (events_since w' (index c req env' w').1)
        /\ Forall (on_client c) (events_since w' (columns_input cfg c req env' w').1)
        /\ Forall (on_client c) (events_since w' (assign_roles_action cfg req env' w').1)).
Proof.
  intros out evs user. split; [apply startup_events|].
  intros c req env' w'.
  split; [apply index_on_client|].
  split; [apply columns_input_on_client | apply assign_roles_action_on_client].
Qed.

(** The primary endpoint is down, the standby one answers. *)
Example standby_selected :
  startup Sample.cfg
    (Sample.env_failing (fun c =>
       match c with
       | ListStatus cl _ => String.eqb (base_url cl) (primary_url Sample.cfg)
       | _ => false
       end)) Sample.w0
  = (World
       [Called (NewClient "http://nn1:9870" "hdfs") (inr PyNone);
        Called (ListStatus Sample.primary "/") (inl (Exception "boom"));
        Logged ERROR "Primary HDFS недоступен: boom. Пытаемся подключиться к standby.";
        Called (NewClient "http://nn2:9870" "hdfs") (inr PyNone);
        Called (ListStatus Sample.standby "/") (inr PyNone)] ∅ ∅,
     inr Sample.standby).
Proof. vm_compute. reflexivity. Qed.

(** * Further properties *)

(** ** [assign_roles_action] *)

Ltac run_assign env :=
  match goal with
  | |- context [assign_roles_action ?cfg ?req env ?w] =>
      let w' := fresh "w'" in
      let r := fresh "r" in
      let Hout := fresh "Hout" in
      destruct (assign_roles_action cfg req env w) as [w' r] eqn:Hout;
      revert Hout; unfold assign_roles_action, grant_query; unfold_m;
      repeat split_call env
  end;
  intros [= <- <-]; cbn [fst snd]; normalize_trace.

(** X1: whatever the form holds and whatever the database does,
    [assign_roles_action] raises nothing and answers with the redirect to
    the upload form. *)
Theorem assign_roles_action_always_redirects
    (cfg : config) (req : request) (env : environment) (w : world) :
  (assign_roles_action cfg req env w).2 = inr (redirect (url_for "index" [])).
Proof. run_assign env; reflexivity. Qed.

(** X2: the success message is flashed exactly when the grant was executed
    and committed; in every other run the only flash is the danger message
    with the text of the exception that the last call raised, also logged
    as the one error record. *)
Theorem assign_roles_action_outcome
    (cfg : config) (req : request) (env : environment) (w : world) :
  let evs := events_since w (assign_roles_action cfg req env w).1 in
  (committed evs = [grant_query cfg req]
   /\ flashes evs = [("Роль успешно назначена.", "success")]
   /\ error_records evs = [])
  \/ (committed evs = []
      /\ exists e, last_call_raised evs e
         /\ flashes evs = [("Ошибка при назначении роли: " ++ message e, "danger")]
         /\ error_records evs = ["Ошибка при назначении роли: " ++ message e]).
Proof.
  intros evs. subst evs. unfold last_call_raised.
  run_assign env.
  all: first [ left; repeat split; reflexivity
             | right; split; [reflexivity|]; eexists; split; [eexists; reflexivity|];
               split; reflexivity ].
Qed.

(** X3: no field is checked.  Every submission opens a connection first,
    and the only statement ever executed is the grant built from the text
    of the three fields, a missing one read as [None]; no remote
    file-system call is made and the local files stay as they were. *)
Theorem assign_roles_action_unchecked
    (cfg : config) (req : request) (env : environment) (w : world) :
  let out := assign_roles_action cfg req env w in
  let evs := events_since w out.1 in
  (exists o rest, evs = Called (DbConnect (DB_PARAMS cfg)) o :: rest)
  /\ executed evs `prefix_of` [grant_query cfg req]
  /\ Forall (fun e => match e with Called c _ => is_hdfs_call c = false | _ => True end) evs
  /\ local_files out.1 = local_files w /\ local_dirs out.1 = local_dirs w.
Proof.
  intros out evs. subst out evs.
  run_assign env.
  all: split; [eexists _, _; reflexivity|].
  all: split; [cbn; eexists; reflexivity|].
  all: split; [repeat constructor|].
  all: split; reflexivity.
Qed.

Example grant_of_empty_form :
  grant_query Sample.cfg SampleRoles.empty_grant = "GRANT None ON int.None TO None;"
  /\ executed (trace (assign_roles_action Sample.cfg SampleRoles.empty_grant
                        Sample.env_ok Sample.w0).1)
     = ["GRANT None ON int.None TO None;"].
Proof. split; vm_compute; reflexivity. Qed.

(** X4: the record logged after a grant is the text as written in the
    source, braces included: it names neither the role, nor the user, nor
    the table, and is the same for every submission. *)
Theorem assign_roles_action_log_is_literal
    (cfg : config) (req : request) (env : environment) (w : world) (m : string) :
  In (Logged INFO m) (events_since w (assign_roles_action cfg req env w).1) ->
  m = "Назначена роль {selected_role} пользователю {username} на таблицу {table_name}".
Proof.
  run_assign env; intros Hin; in_cases Hin.
  injection Hin as <-. reflexivity.
Qed.

Lemma assign_roles_action_log_witness :
  In (Logged INFO "Назначена роль {selected_role} пользователю {username} на таблицу {table_name}")
    (events_since Sample.w0
       (assign_roles_action Sample.cfg SampleRoles.grant Sample.env_ok Sample.w0).1)
  /\ "Назначена роль {selected_role} пользователю {username} на таблицу {table_name}"
     = "Назначена роль {selected_role} пользователю {username} на таблицу {table_name}".
Proof.
  assert (H : In (Logged INFO
                    "Назначена роль {selected_role} пользователю {username} на таблицу {table_name}")
                (events_since Sample.w0
                   (assign_roles_action Sample.cfg SampleRoles.grant Sample.env_ok Sample.w0).1)).
  { vm_compute. repeat (first [left; reflexivity | right]). }
  split; [exact H|].
  exact (assign_roles_action_log_is_literal Sample.cfg SampleRoles.grant Sample.env_ok
           Sample.w0 _ H).
Defined.

(** ** The database helpers *)

(** X5: [create_external_table] raises again exactly what it caught.  The
    error record naming the table is written when the statement was handed
    to [execute] ([execute] or [commit] raised), not when [conn.cursor()]
    raised; nothing is committed on a failure. *)
Theorem create_external_table_reraises
    (conn : Psycopg2.connection) (schema_name table_name hdfs_path cd delimiter : string)
    (env : environment) (w : world) :
  let out := create_external_table conn schema_name table_name hdfs_path cd delimiter env w in
  let evs := events_since w out.1 in
  let q := create_external_query schema_name table_name hdfs_path cd delimiter in
  match out.2 with
  | inr _ => committed evs = [q] /\ error_records evs = []
  | inl e =>
      last_call_raised evs e
      /\ committed evs = []
      /\ (executed evs = [q] /\ error_records evs = [helper_error schema_name table_name e]
          \/ executed evs = [] /\ error_records evs = [])
  end.
Proof.
  intros out evs q. subst out evs q. unfold last_call_raised, helper_error.
  destruct (create_external_table conn schema_name table_name hdfs_path cd delimiter env w)
    as [w' r] eqn:Hout.
  revert Hout. unfold_m. repeat split_call env; intros [= <- <-]; cbn [fst snd]; normalize_trace.
  - split; [eexists; reflexivity|]. split; [reflexivity|]. right. split; reflexivity.
  - split; [eexists; reflexivity|]. split; [reflexivity|]. left. split; reflexivity.
  - split; [eexists; reflexivity|]. split; [reflexivity|]. left. split; reflexivity.
  - split; reflexivity.
Qed.

Lemma create_external_table_reraises_witness :
  let out := create_external_table Psycopg2.Conn "ext" "t1" "/projects/vlgmic_1b4e28ba/data.csv"
               "id int, name text" "," SampleRoles.env_commit_fails Sample.w0 in
  let evs := events_since Sample.w0 out.1 in
  out.2 = inl (Exception "boom")
  /\ last_call_raised evs (Exception "boom")
  /\ committed evs = []
  /\ error_records evs = [helper_error "ext" "t1" (Exception "boom")].
Proof.
  pose proof (create_external_table_reraises Psycopg2.Conn "ext" "t1"
                "/projects/vlgmic_1b4e28ba/data.csv" "id int, name text" ","
                SampleRoles.env_commit_fails Sample.w0) as H.
  cbv zeta in *. split; [vm_compute; reflexivity|].
  change ((create_external_table Psycopg2.Conn "ext" "t1" "/projects/vlgmic_1b4e28ba/data.csv"
             "id int, name text" "," SampleRoles.env_commit_fails Sample.w0).2)
    with (@inl exn unit (Exception "boom")) in H.
  destruct H as (Hl & Hc & [[_ He] | [Hx _]]).
  - split; [exact Hl|]. split; [exact Hc | exact He].
  - vm_compute in Hx. discriminate Hx.
Defined.

Lemma columns_input_guarded cfg c req env w :
  commits_guarded false (events_since w (columns_input cfg c req env w).1) = true.
Proof.
  destruct (required_present_dec req) as [Hp|Hn].
  - run_columns_input env Hp; reflexivity.
  - rewrite (columns_input_missing _ _ _ _ _ Hn). cbn [fst]. rewrite events_since_emit.
    reflexivity.
Qed.

(** X6: neither [columns_input] nor [assign_roles_action] ever calls
    [commit] without a statement that [execute] accepted since the last
    [commit]: after a failed [execute] no [commit] follows. *)
Theorem commit_only_after_execute
    (cfg : config) (c : client) (req : request) (env : environment) (w : world) :
  commits_guarded false (events_since w (columns_input cfg c req env w).1) = true
  /\ commits_guarded false (events_since w (assign_roles_action cfg req env w).1) = true.
Proof.
  split; [apply columns_input_guarded|].
  run_assign env; reflexivity.
Qed.

(** ** [columns_input]: what a run records *)

(** X7: a failure of the first step is logged twice when the statement was
    handed to [execute] (by [create_external_table], naming the table, and
    by the handler); every other failure is logged once, by the handler. *)
Theorem first_step_failure_logged_twice
    (cfg : config) (c : client) (req : request) (env : environment) (w : world) (e : exn) :
  required_present req ->
  (db_steps cfg req env w).2 = inl e ->
  let evs := events_since w (columns_input cfg c req env w).1 in
  (executed evs = [external_query cfg req] /\ committed evs = []
   /\ error_records evs
      = [helper_error (SCHEMA_EXTERNAL cfg) (str (form_get req "table_name")) e;
         "Ошибка при создании внешней таблицы: " ++ message e])
  \/ (~ (executed evs = [external_query cfg req] /\ committed evs = [])
      /\ exists m, In m step_messages /\ error_records evs = [m ++ message e]).
Proof.
  intros H He evs. subst evs. revert He. unfold helper_error.
  run_columns_input env H; intros He; try discriminate He; injection He as ->.
  all: first
    [ left; repeat split; reflexivity
    | right; split;
      [ intros [Hx Hc]; first [discriminate Hx | discriminate Hc]
      | unfold step_messages; eexists; split; [|reflexivity]; cbn; tauto ] ].
Qed.

Lemma first_step_failure_witness :
  required_present Sample.mapping
  /\ (db_steps Sample.cfg Sample.mapping SampleRoles.env_create_fails Sample.w0).2
     = inl (Exception "boom")
  /\ error_records
       (events_since Sample.w0
          (columns_input Sample.cfg Sample.primary Sample.mapping
             SampleRoles.env_create_fails Sample.w0).1)
     = ["Ошибка при создании внешней таблицы ext.t1: boom";
        "Ошибка при создании внешней таблицы: boom"].
Proof.
  split; [exact sample_mapping_required|]. split; [vm_compute; reflexivity|].
  destruct (first_step_failure_logged_twice Sample.cfg Sample.primary Sample.mapping
              SampleRoles.env_create_fails Sample.w0 (Exception "boom")
              sample_mapping_required) as [(_ & _ & H) | (Hn & _)].
  - vm_compute; reflexivity.
  - exact H.
  - exfalso. apply Hn. split; vm_compute; reflexivity.
Defined.

(** X8: when the three steps return, each statement was committed by its
    own [commit], in order, and the run flashed nothing and logged no
    error. *)
Theorem successful_steps_commit_all
    (cfg : config) (c : client) (req : request) (env : environment) (w : world) :
  required_present req ->
  (db_steps cfg req env w).2 = inr tt ->
  let evs := events_since w (columns_input cfg c req env w).1 in
  committed evs = [external_query cfg req; materialize_query cfg req; drop_query cfg req]
  /\ flashes evs = [] /\ error_records evs = [].
Proof.
  intros H Hok evs. subst evs. revert Hok.
  run_columns_input env H; intros Hok; try discriminate Hok; repeat split; reflexivity.
Qed.

Lemma successful_steps_witness :
  required_present Sample.mapping
  /\ (db_steps Sample.cfg Sample.mapping Sample.env_ok Sample.w0).2 = inr tt
  /\ committed
       (events_since Sample.w0
          (columns_input Sample.cfg Sample.primary Sample.mapping Sample.env_ok Sample.w0).1)
     = [external_query Sample.cfg Sample.mapping; materialize_query Sample.cfg Sample.mapping;
        drop_query Sample.cfg Sample.mapping].
Proof.
  split; [exact sample_mapping_required|]. split; [vm_compute; reflexivity|].
  apply (successful_steps_commit_all Sample.cfg Sample.primary Sample.mapping Sample.env_ok
           Sample.w0 sample_mapping_required).
  vm_compute; reflexivity.
Defined.

(** ** [columns_input]: the column definition *)

Lemma zip_surplus_left {A B} (l : list A) (k : list B) (extra : list A) :
  List.length l = List.length k -> zip (l ++ extra) k = zip l k.
Proof.
  revert k. induction l as [|a l IH]; intros [|b k] Hlen; try discriminate Hlen.
  - destruct extra; reflexivity.
  - cbn. f_equal. apply IH. injection Hlen as Hlen. exact Hlen.
Qed.

Lemma zip_surplus_right {A B} (l : list A) (k : list B) (extra : list B) :
  List.length l = List.length k -> zip l (k ++ extra) = zip l k.
Proof.
  revert k. induction l as [|a l IH]; intros [|b k] Hlen; try discriminate Hlen.
  - reflexivity.
  - cbn. f_equal. apply IH. injection Hlen as Hlen. exact Hlen.
Qed.

(** X9: the column definition pairs names and types by position and stops
    at the shorter list: column names beyond the number of types, and types
    beyond the number of names, leave it unchanged. *)
Theorem columns_definition_drops_surplus
    (req : request) (cols types extra : list string) :
  List.length cols = List.length types ->
  (form_getlist req "columns_info" = (cols ++ extra)%list
   /\ form_getlist req "types_info" = types)
  \/ (form_getlist req "columns_info" = cols
      /\ form_getlist req "types_info" = (types ++ extra)%list) ->
  columns_definition req
  = join ", " (map (fun ct => (fst ct ++ " " ++ snd ct)%string) (zip cols types)).
Proof.
  intros Hlen [[Hc Ht]|[Hc Ht]]; unfold columns_definition; rewrite Hc, Ht.
  - rewrite (zip_surplus_left _ _ _ Hlen). reflexivity.
  - rewrite (zip_surplus_right _ _ _ Hlen). reflexivity.
Qed.

Lemma columns_definition_witness :
  List.length ["id"] = List.length ["int"]
  /\ form_getlist Sample.mapping_short_types "columns_info" = (["id"] ++ ["name"])%list
  /\ form_getlist Sample.mapping_short_types "types_info" = ["int"]
  /\ columns_definition Sample.mapping_short_types = "id int".
Proof.
  split; [reflexivity|]. split; [vm_compute; reflexivity|]. split; [vm_compute; reflexivity|].
  rewrite (columns_definition_drops_surplus Sample.mapping_short_types ["id"] ["int"] ["name"]
             eq_refl).
  - reflexivity.
  - left. split; vm_compute; reflexivity.
Defined.

(** ** [index]: the local copy *)



(** X11: [uuid4] and [mkdirs] are called outside any [try].  When one of
    them raises, the request ends with that exception: nothing is flashed,
    no error is logged, neither an upload nor a delete is attempted, and
    the header-stripped local copy stays. *)
Theorem index_mkdirs_failure_propagates
    (c : client) (req : request) (f : FileStorage) (env : environment) (w : world)
    (d : call) (e : exn) :
  uploads req f ->
  In (Called d (inl e)) (events_since w (index c req env w).1) ->
  match d with Uuid4 | Mkdirs _ _ => True | _ => False end ->
  let out := index c req env w in
  let evs := events_since w out.1 in
  out.2 = inl e
  /\ last evs = Some (Called d (inl e))
  /\ flashes evs = [] /\ error_records evs = []
  /\ Forall (fun cr => match fst cr with Uuid4 | Mkdirs _ _ => True | _ => False end) (calls evs)
  /\ is_Some (local_files out.1 !! Os.path_join "temp" (filename f)).
Proof.
  intros Hup Hin Hd out evs. subst out evs. revert Hin.
  run_index env Hup; intros Hin; in_cases Hin.
  all: inversion Hin; subst; try contradiction.
  all: cbn [local_files]; rewrite ?lookup_insert_eq.
  all: repeat split; try reflexivity; try (eexists; reflexivity).
  all: repeat constructor.
Qed.

Lemma index_mkdirs_failure_witness :
  uploads Sample.upload Sample.data_csv
  /\ In (Called (Mkdirs Sample.primary "/projects/vlgmic_1b4e28ba") (inl (Exception "boom")))
       (events_since Sample.w0
          (index Sample.primary Sample.upload SampleRoles.env_mkdirs_fails Sample.w0).1)
  /\ (index Sample.primary Sample.upload SampleRoles.env_mkdirs_fails Sample.w0).2
     = inl (Exception "boom").
Proof.
  assert (Hin : In (Called (Mkdirs Sample.primary "/projects/vlgmic_1b4e28ba")
                      (inl (Exception "boom")))
                  (events_since Sample.w0
                     (index Sample.primary Sample.upload SampleRoles.env_mkdirs_fails
                        Sample.w0).1)).
  { vm_compute. repeat (first [left; reflexivity | right]). }
  split; [exact sample_uploads|]. split; [exact Hin|].
  apply (index_mkdirs_failure_propagates Sample.primary Sample.upload Sample.data_csv
           SampleRoles.env_mkdirs_fails Sample.w0 _ _ sample_uploads Hin I).
Defined.

(** X13: [columns_input] leaves the local files and directories as they
    were, in every run; [index] adds no directory but [temp]. *)
Theorem handlers_local_frame
    (cfg : config) (c : client) (req : request) (env : environment) (w : world) :
  (local_files (columns_input cfg c req env w).1 = local_files w
   /\ local_dirs (columns_input cfg c req env w).1 = local_dirs w)
  /\ (local_dirs (index c req env w).1 = local_dirs w
      \/ local_dirs (index c req env w).1 = {["temp"]} ∪ local_dirs w).
Proof.
  split.
  - destruct (required_present_dec req) as [Hp|Hn].
    + destruct (columns_input cfg c req env w) as [w' r] eqn:Hout. revert Hout.
      unfold columns_input. rewrite (validation_passes _ Hp). unfold_m.
      repeat split_call env; intros [= <- <-]; split; reflexivity.
    + rewrite (columns_input_missing _ _ _ _ _ Hn). split; reflexivity.
  - destruct (uploads_dec req) as [[f Hup]|Hno].
    + assert (Hd : local_dirs (index c req env w).1 = temp_dirs w).
      { run_index env Hup; reflexivity. }
      rewrite Hd. unfold temp_dirs. destruct (_ || _); auto.
    + destruct (index_no_upload c req env w Hno) as (evs & resp & -> & _). left. reflexivity.
Qed.

(** ** [init_webhdfs_client] *)

(** X14: [init_webhdfs_client] raises nothing, whatever the endpoints do.
    It returns a client of the primary or of the standby endpoint, or
    [None]; [None] comes with two error records, a client of the standby
    endpoint with one, a client of the primary endpoint with none. *)
Theorem init_webhdfs_client_never_raises (cfg : config) (env : environment) (w : world) :
  let out := init_webhdfs_client cfg env w in
  let evs := events_since w out.1 in
  (out.2 = inr (Some (WebHDFSClient (primary_url cfg) (hdfs_username cfg)))
   /\ List.length (error_records evs) = 0)
  \/ (out.2 = inr (Some (WebHDFSClient (standby_url cfg) (hdfs_username cfg)))
      /\ List.length (error_records evs) = 1)
  \/ (out.2 = inr None /\ List.length (error_records evs) = 2).
Proof.
  intros out evs. subst out evs.
  destruct (init_webhdfs_client cfg env w) as [w' r] eqn:Hout. revert Hout.
  unfold init_webhdfs_client. unfold_m.
  repeat split_call env; intros [= <- <-]; cbn [fst snd]; normalize_trace.
  all: first [ left; split; reflexivity
             | right; left; split; reflexivity
             | right; right; split; reflexivity ].
Qed.

(** ** From one request to the next *)

Lemma delete_calls_of_columns_input cfg c req env w :
  Forall (fun d => d = DeleteFile c (form_get req "hdfs_directory") true)
    (delete_calls (events_since w (columns_input cfg c req env w).1)).
Proof.
  destruct (required_present_dec req) as [Hp|Hn].
  - pose proof (columns_input_summary cfg c req env w Hp) as Hs.
    destruct (db_steps cfg req env w).2 as [e|[]].
    + rewrite Hs. constructor.
    + destruct Hs as [_ ->]. repeat constructor.
  - rewrite (columns_input_missing _ _ _ _ _ Hn). cbn [fst]. rewrite events_since_emit.
    constructor.
Qed.

(** X15: the mapping form carries the directory [index] created and the
    path it uploaded to.  A submission that hands both back makes
    [columns_input] read the external table from that very path and
    delete, if anything, that very directory. *)
Theorem staged_directory_is_the_one_deleted
    (cfg : config) (c : client) (req : request) (f : FileStorage)
    (env : environment) (w : world)
    (t : string) (ctx : list (string * pyval)) (dir path : string)
    (req2 : request) (env2 : environment) (w2 : world) :
  uploads req f ->
  (index c req env w).2 = inr (render_template t ctx) ->
  In ("hdfs_directory", PyStr dir) ctx ->
  In ("hdfs_file_path", PyStr path) ctx ->
  form_get req2 "hdfs_directory" = PyStr dir ->
  form_get req2 "hdfs_file_path" = PyStr path ->
  (exists v, In (Called (Mkdirs c dir) (inr v)) (events_since w (index c req env w).1))
  /\ (forall c' l r o,
        In (Called (UploadFile c' l r) o) (events_since w (index c req env w).1) -> r = path)
  /\ path = dir ++ "/" ++ filename f
  /\ external_query cfg req2
     = create_external_query (SCHEMA_EXTERNAL cfg) (str (form_get req2 "table_name")) path
         (columns_definition req2) (str (form_get req2 "delimiter"))
  /\ Forall (fun d => d = DeleteFile c (PyStr dir) true)
       (delete_calls (events_since w2 (columns_input cfg c req2 env2 w2).1)).
Proof.
  intros Hup Hr Hdir Hpath Hd2 Hp2.
  assert (H1 : (exists v, In (Called (Mkdirs c dir) (inr v))
                            (events_since w (index c req env w).1))
               /\ (forall c' l r o,
                     In (Called (UploadFile c' l r) o) (events_since w (index c req env w).1)
                     -> r = path)
               /\ path = dir ++ "/" ++ filename f).
  { revert Hr. run_index env Hup; intros Hr; try discriminate Hr.
    all: injection Hr as <- <-; in_cases Hdir; in_cases Hpath.
    all: injection Hdir as <-; injection Hpath as <-.
    all: split; [eexists; cbn; tauto|].
    all: split; [|reflexivity].
    all: intros c' l r o Hin; in_cases Hin; injection Hin as <- <- <- <-; reflexivity. }
  destruct H1 as (Hm & Hu & Heq). split; [exact Hm|]. split; [exact Hu|].
  split; [exact Heq|]. split.
  - unfold external_query. rewrite Hp2. reflexivity.
  - rewrite <- Hd2. apply delete_calls_of_columns_input.
Qed.

Lemma staged_directory_witness :
  uploads Sample.upload Sample.data_csv
  /\ form_get Sample.mapping "hdfs_directory" = PyStr "/projects/vlgmic_1b4e28ba"
  /\ form_get Sample.mapping "hdfs_file_path" = PyStr "/projects/vlgmic_1b4e28ba/data.csv"
  /\ (exists v, In (Called (Mkdirs Sample.primary "/projects/vlgmic_1b4e28ba") (inr v))
                  (events_since Sample.w0
                     (index Sample.primary Sample.upload Sample.env_ok Sample.w0).1))
  /\ Forall (fun d => d = DeleteFile Sample.primary (PyStr "/projects/vlgmic_1b4e28ba") true)
       (delete_calls
          (events_since Sample.w0
             (columns_input Sample.cfg Sample.primary Sample.mapping Sample.env_ok
                Sample.w0).1)).
Proof.
  split; [exact sample_uploads|]. split; [vm_compute; reflexivity|].
  split; [vm_compute; reflexivity|].
  destruct (staged_directory_is_the_one_deleted Sample.cfg Sample.primary Sample.upload
              Sample.data_csv Sample.env_ok Sample.w0 "columns_input.html"
              [("headers", PyList [PyStr "id"; PyStr "name"]);
               ("hdfs_directory", PyStr "/projects/vlgmic_1b4e28ba");
               ("hdfs_file_path", PyStr "/projects/vlgmic_1b4e28ba/data.csv")]
              "/projects/vlgmic_1b4e28ba" "/projects/vlgmic_1b4e28ba/data.csv"
              Sample.mapping Sample.env_ok Sample.w0 sample_uploads)
    as (Hm & _ & _ & _ & Hd).
  - vm_compute; reflexivity.
  - cbn; tauto.
  - cbn; tauto.
  - vm_compute; reflexivity.
  - vm_compute; reflexivity.
  - split; assumption.
Defined.

(** X16: the redirect [columns_input] ends with, followed, makes
    [success] render the submitted table name under both names, the
    external one included; [success] itself makes no call, logs and
    flashes nothing, and raises nothing. *)
Theorem success_shows_the_table_name_twice
    (cfg : config) (c : client) (req : request) (env : environment) (w : world)
    (values : list (string * pyval)) (env' : environment) (w' : world) :
  (columns_input cfg c req env w).2 = inr (redirect (url_for "success" values)) ->
  success (query_args (url_for "success" values)) env' w'
  = (w', inr (render_template "success.html"
                [("external_table_name", form_get req "table_name");
                 ("internal_table_name", form_get req "table_name")])).
Proof.
  intros Hr.
  destruct (required_present_dec req) as [Hp|Hn].
  - assert (Hv : values = [("external_table_name", form_get req "table_name");
                           ("internal_table_name", form_get req "table_name")]).
    { revert Hr. rewrite (columns_input_run _ _ _ _ _ Hp).
      destruct (create_step cfg req env w) as [w1 [e|conn]]; [intros Hr; discriminate Hr|].
      destruct (materialize_step cfg req conn env w1) as [w2 [e|[]]];
        [intros Hr; discriminate Hr|].
      destruct (drop_step cfg req conn env w2) as [w3 [e|[]]]; [intros Hr; discriminate Hr|].
      unfold cleanup. unfold_m. split_call env; intros Hr; [discriminate Hr|].
      injection Hr as <-. reflexivity. }
    subst values. destruct Hp as (_ & (v & Hv & Hne) & _). rewrite Hv.
    unfold success, query_args, args_get. unfold_m. cbn [omap list_omap fst snd str].
    reflexivity.
  - rewrite (columns_input_missing _ _ _ _ _ Hn) in Hr. discriminate Hr.
Qed.

Lemma success_witness :
  (columns_input Sample.cfg Sample.primary Sample.mapping Sample.env_ok Sample.w0).2
  = inr (redirect (url_for "success"
           [("external_table_name", PyStr "t1"); ("internal_table_name", PyStr "t1")]))
  /\ success (query_args (url_for "success"
                [("external_table_name", PyStr "t1"); ("internal_table_name", PyStr "t1")]))
       Sample.env_ok Sample.w0
     = (Sample.w0,
        inr (render_template "success.html"
               [("external_table_name", form_get Sample.mapping "table_name");
                ("internal_table_name", form_get Sample.mapping "table_name")])).
Proof.
  assert (H : (columns_input Sample.cfg Sample.primary Sample.mapping Sample.env_ok
                 Sample.w0).2
              = inr (redirect (url_for "success"
                       [("external_table_name", PyStr "t1");
                        ("internal_table_name", PyStr "t1")]))).
  { vm_compute; reflexivity. }
  split; [exact H|].
  exact (success_shows_the_table_name_twice Sample.cfg Sample.primary Sample.mapping
           Sample.env_ok Sample.w0 _ Sample.env_ok Sample.w0 H).
Defined.

(** ** What the handlers never call *)

(** X17: [index] never calls the database, and it calls [delete_file] only
    in a run whose upload step raised, and then once. *)
Theorem index_never_calls_database
    (c : client) (req : request) (env : environment) (w : world) :
  let evs := events_since w (index c req env w).1 in
  Forall (fun cr => is_db_call (fst cr) = false) (calls evs)
  /\ (delete_calls evs = []
      \/ upload_raised evs = true /\ List.length (delete_calls evs) = 1).
Proof.
  intros evs. subst evs.
  destruct (uploads_dec req) as [[f Hup]|Hno].
  - run_index env Hup.
    all: split; [repeat constructor|].
    all: first [left; reflexivity | right; split; reflexivity].
  - destruct (index_no_upload c req env w Hno) as (evs & resp & -> & Hall).
    cbn [fst]. rewrite events_since_app.
    assert (Hc : calls evs = [] /\ delete_calls evs = []).
    { clear -Hall. induction Hall as [|e evs He _ [IH1 IH2]]; [split; reflexivity|].
      destruct e; try contradiction; split; assumption. }
    destruct Hc as [-> ->]. split; [constructor | left; reflexivity].
Qed.

(** X18: the only remote file-system call [columns_input] ever makes is the
    [delete_file] that ends a successful run: it is the last call of the
    run, and every call before it is a database call. *)
Theorem columns_input_remote_calls
    (cfg : config) (c : client) (req : request) (env : environment) (w : world) :
  let evs := events_since w (columns_input cfg c req env w).1 in
  Forall (fun cr => is_db_call (fst cr) = true) (calls evs)
  \/ exists before o,
       calls evs = (before ++ [(DeleteFile c (form_get req "hdfs_directory") true, o)])%list
       /\ Forall (fun cr => is_db_call (fst cr) = true) before.
Proof.
  intros evs. subst evs.
  destruct (required_present_dec req) as [Hp|Hn].
  - run_columns_input env Hp.
    all: first
      [ left; solve [repeat constructor]
      | right;
        match goal with
        | |- exists before o, calls ?evs = _ /\ _ =>
            exists (removelast (calls evs)); eexists; split;
            [reflexivity | solve [repeat constructor]]
        end ].
  - rewrite (columns_input_missing _ _ _ _ _ Hn). cbn [fst]. rewrite events_since_emit.
    left. constructor.
Qed.
